(** * The DataStore action layer of CKAN (ckanext/datastore/logic/action.py)

    A shallow embedding of the action functions of the DataStore extension:
    Python dictionaries are finite maps, exceptions are an error result,
    the stores the actions touch (resource registry, datastore catalog,
    search index) are threaded explicitly, and every call that leaves the
    module is recorded in a trace so that ordering properties can be
    stated. *)

From stdpp Require Import gmap strings list fin_maps pretty.
From Stdlib Require Import ZArith.

Set Warnings "-register-all".
Set Default Proof Using "Type".

(** ** Python values *)

Inductive value :=
| VNone
| VBool (b : bool)
| VInt (z : Z)
| VStr (s : string)
| VList (l : list value)
| VDict (d : gmap string value).

(** [bool(v)]: the truth value Python gives to [v] in [if v:]. *)
Definition truthy (v : value) : bool :=
  match v with
  | VNone => false
  | VBool b => b
  | VInt z => negb (Z.eqb z 0)
  | VStr s => negb (String.eqb s "")
  | VList l => match l with [] => false | _ => true end
  | VDict d => match map_to_list d with [] => false | _ => true end
  end.

(** [a == b]. Booleans compare equal to the integers 0 and 1, containers
    compare element-wise, dictionaries key-wise. *)
Fixpoint py_eq (a b : value) {struct a} : bool :=
  match a, b with
  | VNone, VNone => true
  | VBool x, VBool y => bool_decide (x = y)
  | VBool x, VInt y | VInt y, VBool x =>
      bool_decide (y = if x then 1%Z else 0%Z)
  | VInt x, VInt y => bool_decide (x = y)
  | VStr x, VStr y => bool_decide (x = y)
  | VList x, VList y =>
      (fix go (x y : list value) : bool :=
         match x, y with
         | [], [] => true
         | u :: x', v :: y' => py_eq u v && go x' y'
         | _, _ => false
         end) x y
  | VDict x, VDict y =>
      bool_decide (size x = size y) &&
      map_fold (fun k u acc =>
                  acc && match y !! k with
                         | Some v => py_eq u v
                         | None => false
                         end) true x
  | _, _ => false
  end.

(** [v is True]: identity with the singleton [True], so [1] and ["true"]
    are not [True]. *)
Definition is_True (v : value) : bool :=
  match v with VBool true => true | _ => false end.

(** [d.get(k)]: a missing key reads as [None]. *)
Definition dict_get (k : string) (d : gmap string value) : value :=
  default VNone (d !! k).

(** [d.get(k, dflt)] and the value part of [d.pop(k, dflt)]. *)
Definition dict_get_default (k : string) (dflt : value)
    (d : gmap string value) : value :=
  default dflt (d !! k).

(** [x in l] for a Python list. *)
Definition py_in (x : value) (l : list value) : bool :=
  existsb (py_eq x) l.

Definition dq : string := String (Ascii.ascii_of_nat 34) EmptyString.

(** ** Exceptions *)

Inductive exn :=
| ValidationError (error_dict : value)
| ObjectNotFound (msg : string)
| NotAuthorized (msg : string)
| InvalidDataError (msg : string)
| KeyError (key : string)
| AttributeError (attr : string)
| TypeError (what : string)
| NoResultFound
| BackendError (msg : string).

Inductive outcome (A : Type) :=
| Ok (a : A)
| Raise (e : exn).
Arguments Ok {A} a.
Arguments Raise {A} e.

(** ** The stores *)

(** A row of the resource table: the owning package, the core columns
    (url, url_type, ...) and the extras blob. *)
Record resource_row := {
  row_package_id : string;
  row_core : gmap string value;
  row_extras : gmap string value }.

Record revision_row := {
  rev_id : string;
  rev_current : bool;
  rev_extras : gmap string value }.

Record package_row := { pkg_private : bool }.

(** The CKAN metadata database (the model). *)
Record registry := {
  resource_table : gmap string resource_row;
  resource_revision_table : list revision_row;
  package_table : gmap string package_row }.

(** A row of the [_table_metadata] view of the datastore database. *)
Record catalog_row := {
  name : string;
  alias_of : option string }.

Record datastore := {
  catalog : list catalog_row;
  table_rows : gmap string (list value) }.

Record world := {
  ckan_db : registry;
  datastore_db : datastore;
  solr_index : list value }.

Definition set_ckan_db (r : registry) (w : world) : world :=
  {| ckan_db := r; datastore_db := datastore_db w;
     solr_index := solr_index w |}.

Definition set_datastore_db (d : datastore) (w : world) : world :=
  {| ckan_db := ckan_db w; datastore_db := d;
     solr_index := solr_index w |}.

Definition set_solr_index (s : list value) (w : world) : world :=
  {| ckan_db := ckan_db w; datastore_db := datastore_db w;
     solr_index := s |}.

(** ** The request context *)

Inductive schema :=
| datastore_create_schema
| datastore_upsert_schema
| datastore_search_schema
| custom_schema (n : nat).

Record context := {
  ctx_schema : option schema;   (* context.get('schema') *)
  ctx_model : bool;             (* 'model' in context *)
  ctx_user : string }.

(** ** Calls that leave the module *)

Inductive db_function :=
| db_create | db_upsert | db_delete | db_search | db_search_sql.

(** The two statements the actions run against [_table_metadata]. *)
Inductive catalog_query :=
| select_real_table   (* SELECT 1 ... WHERE name = :id AND alias_of IS NULL *)
| select_alias_of.    (* SELECT alias_of ... WHERE name = :id *)

Inductive event :=
| EvCheckAccess (action : string) (data_dict : gmap string value)
| EvAction (action : string) (arg : gmap string value)
| EvExecute (connection_url : value) (q : catalog_query) (id : value)
| EvDb (f : db_function) (data_dict : gmap string value)
| EvSetFlag (data_dict : gmap string value) (flag : bool)
| EvCommit
| EvSolrRun (q : gmap string value)
| EvIndexPackage (doc : value).

(** The collaborators of the action layer. None of them lives in
    action.py; the actions are verified for every behaviour they may
    have. The read-only ones ([check_access], [resource_show]) see the
    registry but cannot change it; the Table Engine ([db_call]) works on
    the datastore database only. *)
Record collaborators := {
  config : gmap string string;
  _validate : gmap string value -> schema -> context ->
              gmap string value * gmap string value;
  check_access_policy : string -> context -> gmap string value ->
                        registry -> outcome unit;
  resource_show : context -> gmap string value -> registry ->
                  outcome (gmap string value);
  resource_create : context -> gmap string value -> registry ->
                    outcome (gmap string value) * registry;
  resource_update : context -> gmap string value -> registry ->
                    outcome (gmap string value) * registry;
  datapusher_submit : context -> gmap string value -> registry ->
                      outcome value * registry;
  plugin_loaded : string -> bool;
  db_call : db_function -> context -> gmap string value -> datastore ->
            outcome (gmap string value) * datastore;
  _is_valid_table_name : value -> bool;
  get_list : value -> option (list value);
  sqlparse_split : value -> list string;
  solr_run : gmap string value -> list value -> outcome (list value);
  index_package : value -> list value -> outcome unit * list value;
  json_loads : value -> outcome value }.

(** ** The monad: state, exceptions and the trace of outside calls *)

Definition M (A : Type) : Type := world -> outcome A * world * list event.

Definition ret {A} (a : A) : M A := fun w => (Ok a, w, []).

Definition raise {A} (e : exn) : M A := fun w => (Raise e, w, []).

Definition bind {A B} (m : M A) (f : A -> M B) : M B :=
  fun w =>
    match m w with
    | (Ok a, w1, t1) =>
        match f a w1 with
        | (r, w2, t2) => (r, w2, t1 ++ t2)
        end
    | (Raise e, w1, t1) => (Raise e, w1, t1)
    end.

Notation "x <- c ;; k" := (bind c (fun x => k))
  (at level 100, c at next level, right associativity).
Notation "c ;;; k" := (bind c (fun _ => k))
  (at level 100, right associativity).

Definition log (e : event) : M unit := fun w => (Ok tt, w, [e]).

Definition get_world : M world := fun w => (Ok w, w, []).

Definition result_of {A} (x : outcome A * world * list event) : outcome A :=
  x.1.1.
Definition world_of {A} (x : outcome A * world * list event) : world :=
  x.1.2.
Definition trace_of {A} (x : outcome A * world * list event) : list event :=
  x.2.

(** [d[k]]: a missing key raises [KeyError]. *)
Definition dict_item (k : string) (d : gmap string value) : M value :=
  match d !! k with
  | Some v => ret v
  | None => raise (KeyError k)
  end.

(** [for x in l: body(x)] where the body may raise. *)
Fixpoint for_each {A} (l : list A) (body : A -> M unit) : M unit :=
  match l with
  | [] => ret tt
  | x :: l' => body x ;;; for_each l' body
  end.

(** [item[k]] on an arbitrary value: only dictionaries can be indexed by
    a string key. *)
Definition item_of (v : value) (k : string) : M value :=
  match v with
  | VDict d => dict_item k d
  | _ => raise (TypeError "object is not subscriptable by key")
  end.

(** [unicode(v)] as used by [template.format(v)]. Containers are not
    rendered element by element. *)
Definition render (v : value) : string :=
  match v with
  | VNone => "None"
  | VBool true => "True"
  | VBool false => "False"
  | VInt z => pretty z
  | VStr s => s
  | VList _ => "[...]"
  | VDict _ => "{...}"
  end.

Definition WHITELISTED_RESOURCES : list value := [VStr "_table_metadata"].

Definition not_single_statement_error : value :=
  VDict {[ "query" := VList [VStr "Query is not a single statement."] ]}.

Definition read_only_error : value :=
  VDict {[ "read-only" :=
    VList [VStr ("Cannot edit read-only resource. Either pass" +:+
                 dq +:+ "force=True" +:+ dq +:+
                 " or change url-type to " +:+ dq +:+ "datastore" +:+ dq)] ]}.

(** [ObjectNotFound(_(u'Resource "{0}" was not found.'.format(res_id)))],
    the translation [_] left out. *)
Definition resource_not_found (res_id : value) : exn :=
  ObjectNotFound
    ("Resource " +:+ dq +:+ render res_id +:+ dq +:+ " was not found.").

Definition datapusher_disabled_error : value :=
  VDict {[ "resource" := VList [VStr "The datapusher has to be enabled."] ]}.

(** ** The Metadata Catalog *)

(** [name = :id]: a bound parameter that is not text matches no name. *)
Definition name_matches (id : value) (r : catalog_row) : bool :=
  match id with
  | VStr s => bool_decide (name r = s)
  | _ => false
  end.

Definition is_real_table (r : catalog_row) : bool :=
  match alias_of r with None => true | Some _ => false end.

(** Rows of [SELECT 1 FROM "_table_metadata" WHERE name = :id AND
    alias_of IS NULL]. *)
Definition real_table_rows (c : list catalog_row) (id : value)
    : list catalog_row :=
  List.filter (fun r => name_matches id r && is_real_table r) c.

(** Rows of [SELECT alias_of FROM "_table_metadata" WHERE name = :id]. *)
Definition alias_of_rows (c : list catalog_row) (id : value)
    : list (option string) :=
  map alias_of (List.filter (name_matches id) c).

(** ** The Resource Registry, read through the model *)

(** Modelled from the spec: [model.Resource.get] is defined in
    ckan/model/resource.py, outside action.py. The registry's [get(id)]
    returns the resource stored under the id, or [None]. *)
Definition Resource_get (reg : registry) (id : value) : option resource_row :=
  match id with
  | VStr s => resource_table reg !! s
  | _ => None
  end.

(** [model.ResourceRevision.current is True] compares a column attribute
    with the singleton [True] by identity when the filter is built, so
    Python hands the constant [False] to the query. *)
Definition current_is_True : bool := false.

Definition revision_selected (rid : value) (r : revision_row) : bool :=
  py_eq (VStr (rev_id r)) rid && current_is_True.

Definition update_revisions (rid : value) (extras : gmap string value)
    (revs : list revision_row) : list revision_row :=
  map (fun r => if revision_selected rid r
                then {| rev_id := rev_id r; rev_current := rev_current r;
                        rev_extras := extras |}
                else r) revs.

(** The rows of the resource table with [Resource.id == rid]; ids are
    the primary key, so there is at most one. *)
Definition select_resource (reg : registry) (rid : value)
    : option (string * resource_row) :=
  match rid with
  | VStr id => (fun row => (id, row)) <$> resource_table reg !! id
  | _ => None
  end.

Definition with_extras (extras : gmap string value) (r : resource_row)
    : resource_row :=
  {| row_package_id := row_package_id r; row_core := row_core r;
     row_extras := extras |}.

(** ** The actions *)

Section Actions.
Context (E : collaborators).

(** [config[k]] *)
Definition config_item (k : string) : M value :=
  match config E !! k with
  | Some u => ret (VStr u)
  | None => raise (KeyError k)
  end.

(** Modelled from the spec: [logic.get_or_bust] is defined in
    ckan/logic/__init__.py. A missing required key is reported as a
    ValidationError, otherwise the value is returned. *)
Definition _get_or_bust (d : gmap string value) (k : string) : M value :=
  match d !! k with
  | Some v => ret v
  | None => raise (ValidationError (VDict {[ k := VList [VStr "Missing value"] ]}))
  end.

(** [_get_or_bust(context, 'model')] *)
Definition get_model (ctx : context) : M unit :=
  if ctx_model ctx then ret tt
  else raise (ValidationError (VDict {[ "model" := VList [VStr "Missing value"] ]})).

(** Modelled from the spec: [datastore_helpers.is_single_statement] is
    defined in ckanext/datastore/helpers.py. The input is a single
    statement when splitting it yields no more than one statement. *)
Definition is_single_statement (sql : value) : bool :=
  Nat.leb (length (sqlparse_split E sql)) 1.

(** [p.toolkit.check_access(action, context, data_dict)] *)
Definition check_access (action : string) (ctx : context)
    (data_dict : gmap string value) : M unit :=
  log (EvCheckAccess action data_dict) ;;;
  fun w => (check_access_policy E action ctx data_dict (ckan_db w), w, []).

(** [p.toolkit.get_action('resource_show')(context, arg)] *)
Definition action_resource_show (ctx : context) (arg : gmap string value)
    : M (gmap string value) :=
  log (EvAction "resource_show" arg) ;;;
  fun w => (resource_show E ctx arg (ckan_db w), w, []).

Definition on_registry {A} (f : registry -> outcome A * registry) : M A :=
  fun w => let '(r, reg) := f (ckan_db w) in (r, set_ckan_db reg w, []).

(** [p.toolkit.get_action('resource_create')(context, arg)] *)
Definition action_resource_create (ctx : context) (arg : gmap string value)
    : M (gmap string value) :=
  log (EvAction "resource_create" arg) ;;;
  on_registry (resource_create E ctx arg).

(** [p.toolkit.get_action('resource_update')(context, arg)] *)
Definition action_resource_update (ctx : context) (arg : gmap string value)
    : M (gmap string value) :=
  log (EvAction "resource_update" arg) ;;;
  on_registry (resource_update E ctx arg).

(** [p.toolkit.get_action('datapusher_submit')(context, arg)] *)
Definition action_datapusher_submit (ctx : context) (arg : gmap string value)
    : M value :=
  log (EvAction "datapusher_submit" arg) ;;;
  on_registry (datapusher_submit E ctx arg).

(** [db.create], [db.upsert], [db.delete], [db.search], [db.search_sql]
    called with [(context, data_dict)]. *)
Definition db (f : db_function) (ctx : context)
    (data_dict : gmap string value) : M (gmap string value) :=
  log (EvDb f data_dict) ;;;
  fun w => let '(r, d) := db_call E f ctx data_dict (datastore_db w) in
           (r, set_datastore_db d w, []).

(** Modelled from the spec: [db._get_engine] is defined in
    ckanext/datastore/db.py. [db._get_engine(data_dict).execute(sql,
    id=id)] looks the engine up under [data_dict['connection_url']]
    and runs the statement on the rows (name, alias_of) of the
    Metadata Catalog. *)
Definition execute (data_dict : gmap string value) (q : catalog_query)
    (id : value) : M (list catalog_row) :=
  url <- dict_item "connection_url" data_dict ;;
  log (EvExecute url q id) ;;;
  w <- get_world ;;
  ret (match q with
       | select_real_table => real_table_rows (catalog (datastore_db w)) id
       | select_alias_of =>
           List.filter (name_matches id) (catalog (datastore_db w))
       end).

(** [_check_read_only(context, resource_id)] *)
Definition _check_read_only (ctx : context) (resource_id : value) : M unit :=
  res <- action_resource_show ctx {[ "id" := resource_id ]} ;;
  if negb (py_eq (dict_get "url_type" res) (VStr "datastore"))
  then raise (ValidationError read_only_error)
  else ret tt.

(** The inner loop of [set_datastore_active_flag]: the first
    sub-resource whose id equals the resource id is patched in place;
    [None] when the loop ends without a match. *)
Fixpoint patch_first_match (rid : value) (update_dict : gmap string value)
    (resources : list value) : M (option (list value)) :=
  match resources with
  | [] => ret None
  | resource :: rest =>
      id <- item_of resource "id" ;;
      if py_eq id rid then
        match resource with
        | VDict d => ret (Some (VDict (update_dict ∪ d) :: rest))
        | _ => raise (AttributeError "update")
        end
      else
        r <- patch_first_match rid update_dict rest ;;
        ret (option_map (cons resource) r)
  end.

(** The body of the outer loop over the records solr returned. *)
Definition patch_record (rid : value) (update_dict : gmap string value)
    (record : value) : M unit :=
  raw <- item_of record "data_dict" ;;
  solr_data_dict <- (fun w => (json_loads E raw, w, [])) ;;
  resources <- item_of solr_data_dict "resources" ;;
  match solr_data_dict, resources with
  | VDict doc, VList rs =>
      patched <- patch_first_match rid update_dict rs ;;
      match patched with
      | Some rs' =>
          let doc' := VDict (<["resources" := VList rs']> doc) in
          log (EvIndexPackage doc') ;;;
          fun w => let '(r, s) := index_package E doc' (solr_index w) in
                   (r, set_solr_index s w, [])
      | None => ret tt
      end
  | VDict _, VDict keys =>
      (* the loop runs over the keys, which are strings *)
      if Nat.eqb (size keys) 0 then ret tt
      else raise (TypeError "string indices must be integers")
  | VDict _, VStr s =>
      (* the loop runs over the characters *)
      match s with
      | EmptyString => ret tt
      | String _ _ => raise (TypeError "string indices must be integers")
      end
  | _, _ => raise (TypeError "object is not iterable")
  end.

(** The query [q] of [set_datastore_active_flag]: the indexed document
    of the package [package_id] on this site, one row. *)
Definition package_query (package_id : string) : gmap string value :=
  {[ "q" := VStr ("id:" +:+ dq +:+ package_id +:+ dq);
     "fl" := VStr "data_dict";
     "wt" := VStr "json";
     "fq" := VStr ("site_id:" +:+ dq +:+
                   default "None" (config E !! "ckan.site_id") +:+ dq);
     "rows" := VInt 1 ]}.

(** [set_datastore_active_flag(model, data_dict, flag)]; the model is
    the registry of the world. The first step records the call. *)
Definition set_datastore_active_flag (data_dict : gmap string value)
    (flag : bool) : M unit :=
  log (EvSetFlag data_dict flag) ;;;
  let update_dict : gmap string value :=
    {[ "datastore_active" := VBool flag ]} in
  rid <- dict_item "resource_id" data_dict ;;
  w <- get_world ;;
  (* extras, package_id = res_query.one() *)
  match select_resource (ckan_db w) rid with
  | Some (id, row) =>
      let package_id := row_package_id row in
      (* extras.update(update_dict) *)
      let extras := update_dict ∪ row_extras row in
      (* res_query.update({'extras': extras}) and the revision update *)
      on_registry (fun reg =>
        (Ok tt,
         {| resource_table := <[id := with_extras extras row]> (resource_table reg);
            resource_revision_table :=
              update_revisions rid extras (resource_revision_table reg);
            package_table := package_table reg |})) ;;;
      log EvCommit ;;;
      (* get package with updated resource from solr *)
      let q := package_query package_id in
      log (EvSolrRun q) ;;;
      results <- (fun w => (solr_run E q (solr_index w), w, [])) ;;
      for_each results (patch_record rid update_dict)
  | None => raise NoResultFound
  end.

(** [for alias in aliases: if not db._is_valid_table_name(alias): raise] *)
Definition validate_aliases (aliases : list value) : M unit :=
  for_each aliases (fun alias =>
    if negb (_is_valid_table_name E alias)
    then raise (ValidationError (VDict {[ "alias" :=
           VList [VStr (dq +:+ render alias +:+ dq +:+
                        " is not a valid alias name")] ]}))
    else ret tt).

(** [resource.package.private] on the object [Resource.get] returned *)
Definition package_private (reg : registry) (resource : option resource_row)
    : M bool :=
  match resource with
  | None => raise (AttributeError "package")
  | Some row =>
      match package_table reg !! row_package_id row with
      | None => raise (AttributeError "private")
      | Some pkg => ret (pkg_private pkg)
      end
  end.

(** [resource.extras.get('datastore_active')] *)
Definition extras_datastore_active (resource : option resource_row)
    : M value :=
  match resource with
  | None => raise (AttributeError "extras")
  | Some row => ret (dict_get "datastore_active" (row_extras row))
  end.

(** [result.pop('connection_url')] *)
Definition pop_connection_url (result : gmap string value)
    : M (gmap string value) :=
  match result !! "connection_url" with
  | Some _ => ret (delete "connection_url" result)
  | None => raise (KeyError "connection_url")
  end.

(** Lines 125-157 of [datastore_create]: what follows the two branches
    on ['resource' in data_dict], reached from the branch that creates
    an empty resource and from the branch on an existing resource. *)
Definition datastore_create_table (ctx : context)
    (data_dict : gmap string value) : M value :=
  write_url <- config_item "ckan.datastore.write_url" ;;
  let data_dict := <["connection_url" := write_url]> data_dict in
  (* validate aliases *)
  match get_list E (dict_get_default "aliases" (VList []) data_dict) with
  | None => raise (TypeError "object is not iterable")
  | Some aliases =>
      validate_aliases aliases ;;;
      (* create a private datastore resource, if necessary *)
      get_model ctx ;;;
      resource_id <- dict_item "resource_id" data_dict ;;
      w <- get_world ;;
      let resource := Resource_get (ckan_db w) resource_id in
      let legacy_mode := bool_decide (config E !! "ckan.datastore.read_url" = None) in
      private <- (if negb legacy_mode
                  then package_private (ckan_db w) resource
                  else ret false) ;;
      let data_dict :=
        if private then <["private" := VBool true]> data_dict
        else data_dict in
      result <- (fun w =>
                   match db db_create ctx data_dict w with
                   | (Raise (InvalidDataError err), w', t) =>
                       (Raise (ValidationError (VStr err)), w', t)
                   | r => r
                   end) ;;
      (* Set the datastore_active flag on the resource if necessary *)
      active <- extras_datastore_active resource ;;
      (if negb (is_True active)
       then set_datastore_active_flag data_dict true
       else ret tt) ;;;
      let result := delete "id" result in
      let result := delete "private" result in
      result <- pop_connection_url result ;;
      ret (VDict result)
  end.

(** Lines 70-78 of [datastore_create]: the validated [data_dict], with
    the records and the resource put back, and the validation errors. *)
Definition create_validated (ctx : context) (data_dict : gmap string value)
    : gmap string value * gmap string value :=
  let schema := default datastore_create_schema (ctx_schema ctx) in
  let records := dict_get_default "records" VNone data_dict in
  let data_dict := delete "records" data_dict in
  let resource := dict_get_default "resource" VNone data_dict in
  let data_dict := delete "resource" data_dict in
  let '(data_dict, errors) := _validate E data_dict schema ctx in
  let data_dict :=
    if truthy records then <["records" := records]> data_dict
    else data_dict in
  let data_dict :=
    if truthy resource then <["resource" := resource]> data_dict
    else data_dict in
  (data_dict, errors).

Definition datastore_create (ctx : context) (data_dict : gmap string value)
    : M value :=
  let '(data_dict, errors) := create_validated ctx data_dict in
  if truthy (VDict errors) then raise (ValidationError (VDict errors)) else
  check_access "datastore_create" ctx data_dict ;;;
  match data_dict !! "resource", data_dict !! "resource_id" with
  | Some _, Some _ =>
      raise (ValidationError (VDict {[ "resource" :=
        VList [VStr "resource cannot be used with resource_id"] ]}))
  | None, None =>
      raise (ValidationError (VDict {[ "resource_id" :=
        VList [VStr "resource_id or resource required"] ]}))
  | Some (VDict spec), None =>
      let has_url := bool_decide (is_Some (spec !! "url")) in
      (* A datastore only resource does not have a url in the db *)
      let spec :=
        if has_url then spec
        else <["url" := VStr "_datastore_only_resource"]> spec in
      let data_dict := <["resource" := VDict spec]> data_dict in
      resource_dict <- action_resource_create ctx spec ;;
      id <- dict_item "id" resource_dict ;;
      let data_dict := <["resource_id" := id]> data_dict in
      if has_url then
        (* create resource from file *)
        if negb (plugin_loaded E "datapusher")
        then raise (ValidationError datapusher_disabled_error)
        else
          action_datapusher_submit ctx
            {[ "resource_id" := id; "set_url_type" := VBool true ]} ;;;
          ret VNone
      else
        (* create empty resource *)
        let resource_dict := <["url_type" := VStr "datastore"]> resource_dict in
        action_resource_update ctx resource_dict ;;;
        datastore_create_table ctx data_dict
  | Some (VStr _), None | Some (VList _), None =>
      raise (AttributeError "setdefault")
  | Some _, None =>
      raise (TypeError "argument is not iterable")
  | None, Some resource_id =>
      let force := dict_get_default "force" (VBool false) data_dict in
      let data_dict := delete "force" data_dict in
      (if negb (truthy force)
       then _check_read_only ctx resource_id
       else ret tt) ;;;
      datastore_create_table ctx data_dict
  end.

(** The existence test shared by [datastore_upsert] and
    [datastore_delete]: lines 212-221 and 339-348. *)
Definition require_real_table (data_dict : gmap string value) : M unit :=
  res_id <- dict_item "resource_id" data_dict ;;
  results <- execute data_dict select_real_table res_id ;;
  let res_exists := Nat.ltb 0 (length results) in
  if negb res_exists then raise (resource_not_found res_id) else ret tt.

(** Lines 196-200 of [datastore_upsert]. *)
Definition upsert_validated (ctx : context) (data_dict : gmap string value)
    : gmap string value * gmap string value :=
  let schema := default datastore_upsert_schema (ctx_schema ctx) in
  let records := dict_get_default "records" VNone data_dict in
  let data_dict := delete "records" data_dict in
  let '(data_dict, errors) := _validate E data_dict schema ctx in
  let data_dict :=
    if truthy records then <["records" := records]> data_dict
    else data_dict in
  (data_dict, errors).

Definition datastore_upsert (ctx : context) (data_dict : gmap string value)
    : M (gmap string value) :=
  let '(data_dict, errors) := upsert_validated ctx data_dict in
  if truthy (VDict errors) then raise (ValidationError (VDict errors)) else
  check_access "datastore_upsert" ctx data_dict ;;;
  let force := dict_get_default "force" (VBool false) data_dict in
  let data_dict := delete "force" data_dict in
  (if negb (truthy force)
   then resource_id <- dict_item "resource_id" data_dict ;;
        _check_read_only ctx resource_id
   else ret tt) ;;;
  write_url <- config_item "ckan.datastore.write_url" ;;
  let data_dict := <["connection_url" := write_url]> data_dict in
  require_real_table data_dict ;;;
  result <- db db_upsert ctx data_dict ;;
  let result := delete "id" result in
  pop_connection_url result.

(** Lines 313-326 of [datastore_delete], the type test on the filters
    apart: the validated [data_dict], with the filters put back when
    they are not [None], and the validation errors. *)
Definition delete_validated (ctx : context) (data_dict : gmap string value)
    : gmap string value * gmap string value :=
  let schema := default datastore_upsert_schema (ctx_schema ctx) in
  (* Remove any applied filters before running validation. *)
  let filters := dict_get_default "filters" VNone data_dict in
  let data_dict := delete "filters" data_dict in
  let '(data_dict, errors) := _validate E data_dict schema ctx in
  let data_dict :=
    match filters with
    | VNone => data_dict
    | _ => <["filters" := filters]> data_dict
    end in
  (data_dict, errors).

Definition datastore_delete (ctx : context) (data_dict : gmap string value)
    : M (gmap string value) :=
  match dict_get_default "filters" VNone data_dict with
  | VList _ | VStr _ | VInt _ | VBool _ =>
      (* isinstance(filters, dict) fails *)
      raise (ValidationError (VDict {[ "filters" :=
        VList [VStr "filters must be either a dict or null."] ]}))
  | VNone | VDict _ =>
      let '(data_dict, errors) := delete_validated ctx data_dict in
      if truthy (VDict errors) then raise (ValidationError (VDict errors)) else
      check_access "datastore_delete" ctx data_dict ;;;
      let force := dict_get_default "force" (VBool false) data_dict in
      let data_dict := delete "force" data_dict in
      (if negb (truthy force)
       then resource_id <- dict_item "resource_id" data_dict ;;
            _check_read_only ctx resource_id
       else ret tt) ;;;
      write_url <- config_item "ckan.datastore.write_url" ;;
      let data_dict := <["connection_url" := write_url]> data_dict in
      require_real_table data_dict ;;;
      result <- db db_delete ctx data_dict ;;
      (* Set the datastore_active flag on the resource if necessary *)
      get_model ctx ;;;
      resource_id <- dict_item "resource_id" data_dict ;;
      w <- get_world ;;
      let resource := Resource_get (ckan_db w) resource_id in
      (if negb (truthy (dict_get "filters" data_dict))
       then active <- extras_datastore_active resource ;;
            if is_True active
            then set_datastore_active_flag data_dict false
            else ret tt
       else ret tt) ;;;
      let result := delete "id" result in
      pop_connection_url result
  end.

(** Lines 428-429 of [datastore_search]. *)
Definition search_validated (ctx : context) (data_dict : gmap string value)
    : gmap string value * gmap string value :=
  let schema := default datastore_search_schema (ctx_schema ctx) in
  _validate E data_dict schema ctx.

Definition datastore_search (ctx : context) (data_dict : gmap string value)
    : M (gmap string value) :=
  let '(data_dict, errors) := search_validated ctx data_dict in
  if truthy (VDict errors) then raise (ValidationError (VDict errors)) else
  res_id <- dict_item "resource_id" data_dict ;;
  write_url <- config_item "ckan.datastore.write_url" ;;
  let data_dict := <["connection_url" := write_url]> data_dict in
  results <- execute data_dict select_alias_of res_id ;;
  (* Resource only has to exist in the datastore (because it could be an alias) *)
  if negb (Nat.ltb 0 (length results))
  then raise (resource_not_found res_id)
  else
    data_dict <-
      (if negb (py_in res_id WHITELISTED_RESOURCES) then
         (* Replace potential alias with real id to simplify access checks *)
         let resource_id := head (map alias_of results) in
         let data_dict :=
           match resource_id with
           | Some (Some real) =>
               if truthy (VStr real)
               then <["resource_id" := VStr real]> data_dict
               else data_dict
           | _ => data_dict
           end in
         check_access "datastore_search" ctx data_dict ;;;
         ret data_dict
       else ret data_dict) ;;
    result <- db db_search ctx data_dict ;;
    let result := delete "id" result in
    pop_connection_url result.

Definition datastore_search_sql (ctx : context)
    (data_dict : gmap string value) : M (gmap string value) :=
  sql <- _get_or_bust data_dict "sql" ;;
  if negb (is_single_statement sql)
  then raise (ValidationError not_single_statement_error)
  else
    check_access "datastore_search_sql" ctx data_dict ;;;
    read_url <- config_item "ckan.datastore.read_url" ;;
    let data_dict := <["connection_url" := read_url]> data_dict in
    result <- db db_search_sql ctx data_dict ;;
    let result := delete "id" result in
    pop_connection_url result.

End Actions.

(** ** A concrete instance of the collaborators

    A small registry, Table Engine and search index on which the actions
    can be run. The registry stores what [resource_create] and
    [resource_update] are given and [resource_show] reads it back; the
    Table Engine keeps the catalog; the access policy allows everything
    unless stated otherwise. *)

Module Demo.

Definition write_url : string := "postgresql://ckan_rw@db/datastore".
Definition read_url : string := "postgresql://ckan_ro@db/datastore".

Definition demo_config : gmap string string :=
  {[ "ckan.datastore.write_url" := write_url;
     "ckan.datastore.read_url" := read_url;
     "ckan.site_id" := "default" ]}.

Definition show (id : string) (row : resource_row) : gmap string value :=
  <["id" := VStr id]>
    (<["package_id" := VStr (row_package_id row)]>
       (row_core row ∪ row_extras row)).

Definition demo_resource_show (_ : context) (arg : gmap string value)
    (reg : registry) : outcome (gmap string value) :=
  match arg !! "id" with
  | Some (VStr id) =>
      match resource_table reg !! id with
      | Some row => Ok (show id row)
      | None => Raise (ObjectNotFound "Resource was not found.")
      end
  | _ => Raise (ObjectNotFound "Resource was not found.")
  end.

Definition put_resource (id : string) (row : resource_row) (reg : registry)
    : registry :=
  {| resource_table := <[id := row]> (resource_table reg);
     resource_revision_table := resource_revision_table reg;
     package_table := package_table reg |}.

Definition demo_resource_create (_ : context) (spec : gmap string value)
    (reg : registry) : outcome (gmap string value) * registry :=
  match spec !! "package_id" with
  | Some (VStr pkg) =>
      let id := "res-" +:+ pretty (size (resource_table reg)) in
      let row := {| row_package_id := pkg;
                    row_core := delete "package_id" spec;
                    row_extras := ∅ |} in
      (Ok (show id row), put_resource id row reg)
  | _ => (Raise (ValidationError
                   (VDict {[ "package_id" := VList [VStr "Missing value"] ]})),
          reg)
  end.

Definition demo_resource_update (_ : context)
    (resource_dict : gmap string value) (reg : registry)
    : outcome (gmap string value) * registry :=
  match resource_dict !! "id" with
  | Some (VStr id) =>
      match resource_table reg !! id with
      | Some old =>
          let row := {| row_package_id := row_package_id old;
                        row_core := delete "id" (delete "package_id" resource_dict);
                        row_extras := row_extras old |} in
          (Ok (show id row), put_resource id row reg)
      | None => (Raise (ObjectNotFound "Resource was not found."), reg)
      end
  | _ => (Raise (ObjectNotFound "Resource was not found."), reg)
  end.

Definition demo_datapusher_submit (_ : context) (_ : gmap string value)
    (reg : registry) : outcome value * registry :=
  (Ok (VBool true), reg).

Definition in_catalog (id : string) (c : list catalog_row) : bool :=
  existsb (fun r => bool_decide (name r = id)) c.

(** A row belongs to table [id] when it is the table or one of its aliases. *)
Definition belongs_to (id : string) (r : catalog_row) : bool :=
  bool_decide (name r = id) || bool_decide (alias_of r = Some id).

Definition demo_db_call (f : db_function) (_ : context)
    (data_dict : gmap string value) (d : datastore)
    : outcome (gmap string value) * datastore :=
  match data_dict !! "resource_id", f with
  | Some (VStr id), db_create =>
      (Ok data_dict,
       {| catalog := if in_catalog id (catalog d) then catalog d
                     else catalog d ++ [{| name := id; alias_of := None |}];
          table_rows := table_rows d |})
  | Some (VStr id), db_delete =>
      (Ok data_dict,
       match data_dict !! "filters" with
       | None =>
           {| catalog := List.filter (fun r => negb (belongs_to id r)) (catalog d);
              table_rows := delete id (table_rows d) |}
       | Some _ => d
       end)
  | _, _ => (Ok data_dict, d)
  end.

Definition semicolon : Ascii.ascii := Ascii.ascii_of_nat 59.

(** The pieces of [s] between semicolons, with [acc] the piece being read. *)
Fixpoint split_semicolon (acc s : string) : list string :=
  match s with
  | EmptyString => [acc]
  | String c s' =>
      if Ascii.eqb c semicolon then acc :: split_semicolon "" s'
      else split_semicolon (acc +:+ String c EmptyString) s'
  end.

Definition demo_sqlparse_split (sql : value) : list string :=
  match sql with
  | VStr s => List.filter (fun p => negb (String.eqb p "")) (split_semicolon "" s)
  | _ => []
  end.

Definition demo_get_list (v : value) : option (list value) :=
  match v with
  | VNone => None
  | VList l => Some l
  | VStr s => Some (if String.eqb s "" then [] else [VStr s])
  | _ => Some [v]
  end.

Definition demo_valid_name (v : value) : bool :=
  match v with
  | VStr (String c _) => negb (Ascii.eqb c (Ascii.ascii_of_nat 95))
  | _ => false
  end.

(** The index holds one document per package; a query for [id:"p"]
    returns the documents stored under that id, one row at most. *)
Definition demo_solr_run (q : gmap string value) (index : list value)
    : outcome (list value) :=
  Ok (take 1
        (map (fun doc => VDict {[ "data_dict" := doc ]})
           (List.filter
              (fun doc =>
                 match doc, q !! "q" with
                 | VDict d, Some (VStr query) =>
                     match d !! "id" with
                     | Some (VStr p) =>
                         String.eqb query ("id:" +:+ dq +:+ p +:+ dq)
                     | _ => false
                     end
                 | _, _ => false
                 end) index))).

Definition same_package (a b : value) : bool :=
  match a, b with
  | VDict x, VDict y => py_eq (dict_get "id" x) (dict_get "id" y)
  | _, _ => false
  end.

Definition demo_index_package (doc : value) (index : list value)
    : outcome unit * list value :=
  (Ok tt, doc :: List.filter (fun old => negb (same_package doc old)) index).

Definition demo : collaborators :=
  {| config := demo_config;
     _validate := fun d _ _ => (d, ∅);
     check_access_policy := fun _ _ _ _ => Ok tt;
     resource_show := demo_resource_show;
     resource_create := demo_resource_create;
     resource_update := demo_resource_update;
     datapusher_submit := demo_datapusher_submit;
     plugin_loaded := fun s => String.eqb s "datapusher";
     db_call := demo_db_call;
     _is_valid_table_name := demo_valid_name;
     get_list := demo_get_list;
     sqlparse_split := demo_sqlparse_split;
     solr_run := demo_solr_run;
     index_package := demo_index_package;
     json_loads := Ok |}.

(** The same collaborators under an access policy that denies everything. *)
Definition demo_deny : collaborators :=
  {| config := demo_config;
     _validate := _validate demo;
     check_access_policy := fun _ _ _ _ => Raise (NotAuthorized "Access denied");
     resource_show := resource_show demo;
     resource_create := resource_create demo;
     resource_update := resource_update demo;
     datapusher_submit := datapusher_submit demo;
     plugin_loaded := plugin_loaded demo;
     db_call := db_call demo;
     _is_valid_table_name := _is_valid_table_name demo;
     get_list := get_list demo;
     sqlparse_split := sqlparse_split demo;
     solr_run := solr_run demo;
     index_package := index_package demo;
     json_loads := json_loads demo |}.

(** The same collaborators without the datapusher plugin. *)
Definition demo_no_datapusher : collaborators :=
  {| config := demo_config;
     _validate := _validate demo;
     check_access_policy := check_access_policy demo;
     resource_show := resource_show demo;
     resource_create := resource_create demo;
     resource_update := resource_update demo;
     datapusher_submit := datapusher_submit demo;
     plugin_loaded := fun _ => false;
     db_call := db_call demo;
     _is_valid_table_name := _is_valid_table_name demo;
     get_list := get_list demo;
     sqlparse_split := sqlparse_split demo;
     solr_run := solr_run demo;
     index_package := index_package demo;
     json_loads := json_loads demo |}.

(** The same collaborators with one url configured for both roles. *)
Definition demo_same_url : collaborators :=
  {| config := {[ "ckan.datastore.write_url" := write_url;
                  "ckan.datastore.read_url" := write_url;
                  "ckan.site_id" := "default" ]};
     _validate := _validate demo;
     check_access_policy := check_access_policy demo;
     resource_show := resource_show demo;
     resource_create := resource_create demo;
     resource_update := resource_update demo;
     datapusher_submit := datapusher_submit demo;
     plugin_loaded := plugin_loaded demo;
     db_call := db_call demo;
     _is_valid_table_name := _is_valid_table_name demo;
     get_list := get_list demo;
     sqlparse_split := sqlparse_split demo;
     solr_run := solr_run demo;
     index_package := index_package demo;
     json_loads := json_loads demo |}.

Definition ctx : context :=
  {| ctx_schema := None; ctx_model := true; ctx_user := "alice" |}.

(** One public and one private package. [res-up] is an uploaded file
    with a datastore table and an alias; [res-file] is an uploaded file
    that was never loaded into the datastore; [res-ds] is a resource
    managed by the datastore, in the private package. The search index
    holds the public package, with [res-up] only. *)
Definition uploaded : resource_row :=
  {| row_package_id := "pkg-public";
     row_core := {[ "url" := VStr "http://example.org/data.csv";
                    "url_type" := VStr "upload" ]};
     row_extras := {[ "datastore_active" := VBool true;
                      "format" := VStr "CSV" ]} |}.

Definition file_only : resource_row :=
  {| row_package_id := "pkg-public";
     row_core := {[ "url" := VStr "http://example.org/report.pdf";
                    "url_type" := VStr "upload" ]};
     row_extras := {[ "format" := VStr "PDF" ]} |}.

Definition managed : resource_row :=
  {| row_package_id := "pkg-private";
     row_core := {[ "url" := VStr "_datastore_only_resource";
                    "url_type" := VStr "datastore" ]};
     row_extras := {[ "datastore_active" := VBool true;
                      "note" := VStr "kept" ]} |}.

Definition w0 : world :=
  {| ckan_db :=
       {| resource_table := {[ "res-up" := uploaded;
                               "res-file" := file_only;
                               "res-ds" := managed ]};
          resource_revision_table :=
            [{| rev_id := "res-up"; rev_current := true;
                rev_extras := row_extras uploaded |};
             {| rev_id := "res-ds"; rev_current := true;
                rev_extras := row_extras managed |}];
          package_table := {[ "pkg-public" := {| pkg_private := false |};
                              "pkg-private" := {| pkg_private := true |} ]} |};
     datastore_db :=
       {| catalog := [{| name := "res-up"; alias_of := None |};
                      {| name := "up_alias"; alias_of := Some "res-up" |};
                      {| name := "res-ds"; alias_of := None |};
                      {| name := "_table_metadata"; alias_of := None |}];
          table_rows := ∅ |};
     solr_index :=
       [VDict {[ "id" := VStr "pkg-public";
                 "resources" :=
                   VList [VDict {[ "id" := VStr "res-up";
                                   "datastore_active" := VBool true ]}] ]}] |}.

End Demo.

(** ** Requests on the concrete instance *)

Module Requests.
Import Demo.

Definition one_record : value := VList [VDict {[ "a" := VInt 1 ]}].

(** upsert into the uploaded file that has no datastore table *)
Definition upsert_file : gmap string value :=
  {[ "resource_id" := VStr "res-file"; "records" := one_record ]}.

Definition upsert_file_forced : gmap string value :=
  {[ "resource_id" := VStr "res-file"; "records" := one_record;
     "force" := VBool true ]}.

(** create an empty datastore resource in the public package *)
Definition create_empty : gmap string value :=
  {[ "resource" := VDict {[ "package_id" := VStr "pkg-public" ]} ]}.

(** the resource id the registry gives to the next resource of [w0] *)
Definition new_id : string := "res-3".

Definition upsert_new : gmap string value :=
  {[ "resource_id" := VStr new_id; "records" := one_record ]}.

Definition delete_new : gmap string value :=
  {[ "resource_id" := VStr new_id ]}.

(** upsert into the uploaded file that has a datastore table *)
Definition upsert_uploaded : gmap string value :=
  {[ "resource_id" := VStr "res-up"; "records" := one_record ]}.

Definition upsert_uploaded_forced : gmap string value :=
  {[ "resource_id" := VStr "res-up"; "records" := one_record;
     "force" := VBool true ]}.

Definition sql_two_statements : gmap string value :=
  {[ "sql" := VStr "SELECT 1; DROP TABLE x" ]}.

Definition sql_one_statement : gmap string value :=
  {[ "sql" := VStr "SELECT * FROM abc123" ]}.

Definition search_alias : gmap string value :=
  {[ "resource_id" := VStr "up_alias" ]}.

(** create a resource from a file in the public package *)
Definition create_from_url : gmap string value :=
  {[ "resource" := VDict {[ "package_id" := VStr "pkg-public";
                            "url" := VStr "http://example.org/new.csv" ]} ]}.

(** add fields to the table of the managed resource of the private
    package *)
Definition create_on_managed : gmap string value :=
  {[ "resource_id" := VStr "res-ds";
     "fields" := VList [VDict {[ "id" := VStr "a" ]}] ]}.

(** delete from the managed resource with an empty filter dictionary *)
Definition delete_empty_filters : gmap string value :=
  {[ "resource_id" := VStr "res-ds"; "filters" := VDict ∅ ]}.


End Requests.

(** ** Vocabulary of the statements *)

Section Vocabulary.
Context (E : collaborators).

(** The read-only gate lets a validated request through: force is set,
    or [resource_show] reports the url_type ["datastore"]. *)
Definition passes_read_only_gate (ctx : context)
    (validated : gmap string value) (reg : registry) : Prop :=
  truthy (dict_get_default "force" (VBool false) validated) = true \/
  exists rid res,
    validated !! "resource_id" = Some rid /\
    resource_show E ctx {[ "id" := rid ]} reg = Ok res /\
    py_eq (dict_get "url_type" res) (VStr "datastore") = true.

(** The filters of a delete request are a dictionary or [None]. *)
Definition filters_well_typed (data_dict : gmap string value) : bool :=
  match dict_get_default "filters" VNone data_dict with
  | VNone | VDict _ => true
  | _ => false
  end.

(** What the read-only gate does to a run of [action] on a validated
    request: without force, once the access policy has let the request
    through, a resource whose url_type is not ["datastore"] makes the
    run stop with the read-only error right after [resource_show], and
    a resource whose url_type is ["datastore"] lets the run go on to
    the existence check; with force, [resource_show] is not called
    and, once the access policy has let the request through, the run
    goes straight from the access check to the existence check. *)
Definition read_only_gate_behaviour {A} (action : string) (ctx : context)
    (validated : gmap string value) (w : world)
    (run : outcome A * world * list event) : Prop :=
  let force := dict_get_default "force" (VBool false) validated in
  (truthy force = false ->
   check_access_policy E action ctx validated (ckan_db w) = Ok tt ->
   forall rid res,
     validated !! "resource_id" = Some rid ->
     resource_show E ctx {[ "id" := rid ]} (ckan_db w) = Ok res ->
     (py_eq (dict_get "url_type" res) (VStr "datastore") = false ->
      run = (Raise (ValidationError read_only_error), w,
             [EvCheckAccess action validated;
              EvAction "resource_show" {[ "id" := rid ]}])) /\
     (py_eq (dict_get "url_type" res) (VStr "datastore") = true ->
      forall write_url,
        config E !! "ckan.datastore.write_url" = Some write_url ->
        exists rest,
          trace_of run
          = EvCheckAccess action validated
              :: EvAction "resource_show" {[ "id" := rid ]}
              :: EvExecute (VStr write_url) select_real_table rid :: rest)) /\
  (truthy force = true ->
   (forall arg, EvAction "resource_show" arg ∉ trace_of run) /\
   (check_access_policy E action ctx validated (ckan_db w) = Ok tt ->
    forall rid write_url,
      validated !! "resource_id" = Some rid ->
      config E !! "ckan.datastore.write_url" = Some write_url ->
      exists rest,
        trace_of run
        = EvCheckAccess action validated
            :: EvExecute (VStr write_url) select_real_table rid :: rest)).

(** What a run of [action] does when the catalog has no real table for
    the resource id [rid] of the validated request: the Table Engine is
    not called and the run raises; what it raises is the not-found
    error of the existence check once validation, the access policy
    and the read-only gate have let the request through. *)
Definition missing_table_behaviour {A} (action : string) (ctx : context)
    (validated errors : gmap string value) (rid : value) (w : world)
    (run : outcome A * world * list event) : Prop :=
  (forall f d, EvDb f d ∉ trace_of run) /\
  (exists e, result_of run = Raise e) /\
  (truthy (VDict errors) = false ->
   check_access_policy E action ctx validated (ckan_db w) = Ok tt ->
   passes_read_only_gate ctx validated (ckan_db w) ->
   is_Some (config E !! "ckan.datastore.write_url") ->
   result_of run = Raise (resource_not_found rid)).


End Vocabulary.

(** The events [set_datastore_active_flag] can produce once it has been
    entered. *)
Definition flag_event (ev : event) : Prop :=
  match ev with
  | EvCommit | EvSolrRun _ | EvIndexPackage _ => True
  | _ => False
  end.

(** The events of the search index. *)
Definition index_event (ev : event) : Prop :=
  match ev with
  | EvIndexPackage _ => True
  | _ => False
  end.

(** The package that owns the resource [rid] is private: what
    [resource.package.private] reads on [Resource.get(rid)]. *)
Definition owning_package_private (reg : registry) (rid : value) : Prop :=
  exists row pkg,
    Resource_get reg rid = Some row /\
    package_table reg !! row_package_id row = Some pkg /\
    pkg_private pkg = true.

(** The registry after the flag synchronizer has patched the extras of
    the row [row] stored under [id]. *)
Definition registry_with_flag (reg : registry) (id : string)
    (row : resource_row) (flag : bool) : registry :=
  let extras := {[ "datastore_active" := VBool flag ]} ∪ row_extras row in
  {| resource_table := <[id := with_extras extras row]> (resource_table reg);
     resource_revision_table :=
       update_revisions (VStr id) extras (resource_revision_table reg);
     package_table := package_table reg |}.

(** ** The remaining actions: datastore_info and the privacy toggles *)

(** The parts of the backend these actions reach besides the Metadata
    Catalog: the column listing of INFORMATION_SCHEMA, the row count of
    a table, and the two permission changes of the Table Engine. Like
    the collaborators, they are left arbitrary. *)
Record backend := {
  information_schema_columns :
    datastore -> value -> outcome (list (string * string));
  count_ids : datastore -> value -> outcome Z;
  db_make_private : context -> gmap string value -> datastore ->
                    outcome unit * datastore;
  db_make_public : context -> gmap string value -> datastore ->
                   outcome unit * datastore }.

(** [_type_lookup(t)] of [datastore_info] *)
Definition _type_lookup (t : string) : string :=
  if bool_decide (t = "numeric") || bool_decide (t = "integer")
  then "number"
  else if String.prefix "timestamp" t then "date"
  else "text".

(** The loop of [datastore_info] over the rows (column_name, data_type):
    [info['schema'][k] = _type_lookup(v)] unless [k.startswith('_')]. *)
Definition schema_of (rows : list (string * string)) : gmap string value :=
  fold_left
    (fun schema row =>
       let k := row.1 in
       let v := row.2 in
       if String.prefix "_" k then schema   (* Skip internal rows *)
       else <[k := VStr (_type_lookup v)]> schema)
    rows ∅.

Section MoreActions.
Context (E : collaborators) (B : backend).

(** [db._get_engine(data_dict).execute(schema_sql,
    resource_id=resource_id).fetchall()]; the call is recorded under
    the name of the statement, with the url of the engine and the
    bound parameter. *)
Definition execute_schema_sql (data_dict : gmap string value)
    (resource_id : value) : M (list (string * string)) :=
  url <- dict_item "connection_url" data_dict ;;
  log (EvAction "execute schema_sql"
         {[ "connection_url" := url; "resource_id" := resource_id ]}) ;;;
  fun w => (information_schema_columns B (datastore_db w) resource_id, w, []).

(** [db._get_engine(data_dict).execute(meta_sql,
    resource_id=resource_id).fetchone()[0]] *)
Definition execute_meta_sql (data_dict : gmap string value)
    (resource_id : value) : M Z :=
  url <- dict_item "connection_url" data_dict ;;
  log (EvAction "execute meta_sql"
         {[ "connection_url" := url; "resource_id" := resource_id ]}) ;;;
  fun w => (count_ids B (datastore_db w) resource_id, w, []).

Definition datastore_info (ctx : context) (data_dict : gmap string value)
    : M (gmap string value) :=
  check_access E "datastore_info" ctx data_dict ;;;
  resource_id <- _get_or_bust data_dict "id" ;;
  resource <- action_resource_show E ctx {[ "id" := resource_id ]} ;;
  read_url <- config_item E "ckan.datastore.read_url" ;;
  let data_dict := <["connection_url" := read_url]> data_dict in
  results <- execute data_dict select_real_table resource_id ;;
  let res_exists := Nat.ltb 0 (length results) in
  if negb res_exists then raise (resource_not_found resource_id) else
  columns <- execute_schema_sql data_dict resource_id ;;
  let schema := schema_of columns in
  (* We need to make sure the resource_id is a valid resource_id before
     we use it like this, we have done that above. *)
  count <- execute_meta_sql data_dict resource_id ;;
  ret {[ "schema" := VDict schema;
         "meta" := VDict {[ "count" := VInt count ]} ]}.

(** [_resource_exists(context, data_dict)]: true if the resource exists
    in CKAN and in the datastore. *)
Definition _resource_exists (ctx : context) (data_dict : gmap string value)
    : M bool :=
  get_model ctx ;;;
  res_id <- _get_or_bust data_dict "resource_id" ;;
  w <- get_world ;;
  match Resource_get (ckan_db w) res_id with
  | None => ret false
  | Some _ =>
      results <- execute data_dict select_real_table res_id ;;
      ret (Nat.ltb 0 (length results))
  end.

(** [db.make_private(context, data_dict)], recorded under its name. *)
Definition call_db_make_private (ctx : context)
    (data_dict : gmap string value) : M unit :=
  log (EvAction "db.make_private" data_dict) ;;;
  fun w => let '(r, d) := db_make_private B ctx data_dict (datastore_db w) in
           (r, set_datastore_db d w, []).

(** [db.make_public(context, data_dict)], recorded under its name. *)
Definition call_db_make_public (ctx : context)
    (data_dict : gmap string value) : M unit :=
  log (EvAction "db.make_public" data_dict) ;;;
  fun w => let '(r, d) := db_make_public B ctx data_dict (datastore_db w) in
           (r, set_datastore_db d w, []).

Definition datastore_make_private (ctx : context)
    (data_dict : gmap string value) : M unit :=
  let data_dict :=
    match data_dict !! "id" with
    | Some id => <["resource_id" := id]> data_dict
    | None => data_dict
    end in
  res_id <- _get_or_bust data_dict "resource_id" ;;
  write_url <- config_item E "ckan.datastore.write_url" ;;
  let data_dict := <["connection_url" := write_url]> data_dict in
  found <- _resource_exists ctx data_dict ;;
  if negb found then raise (resource_not_found res_id) else
  check_access E "datastore_change_permissions" ctx data_dict ;;;
  call_db_make_private ctx data_dict.

Definition datastore_make_public (ctx : context)
    (data_dict : gmap string value) : M unit :=
  let data_dict :=
    match data_dict !! "id" with
    | Some id => <["resource_id" := id]> data_dict
    | None => data_dict
    end in
  res_id <- _get_or_bust data_dict "resource_id" ;;
  write_url <- config_item E "ckan.datastore.write_url" ;;
  let data_dict := <["connection_url" := write_url]> data_dict in
  found <- _resource_exists ctx data_dict ;;
  if negb found then raise (resource_not_found res_id) else
  check_access E "datastore_change_permissions" ctx data_dict ;;;
  call_db_make_public ctx data_dict.

End MoreActions.

(** ** Statements about every run of an action *)

(** Every result the action returns satisfies [Q]. *)
Definition returns {A} (m : M A) (Q : A -> Prop) : Prop :=
  forall w a, result_of (m w) = Ok a -> Q a.

(** Every event the action produces satisfies [P]. *)
Definition emits {A} (m : M A) (P : event -> Prop) : Prop :=
  forall w, Forall P (trace_of (m w)).

(** The action leaves the part of the world that [proj] reads as it was. *)
Definition preserves {A B} (proj : world -> B) (m : M A) : Prop :=
  forall w, proj (world_of (m w)) = proj w.

(** The action raises in every world. *)
Definition always_raises {A} (m : M A) : Prop :=
  forall w, exists e, result_of (m w) = Raise e.

(** An event that is a call to the Table Engine is a call to [f]. *)
Definition engine_call_is (f : db_function) (ev : event) : Prop :=
  match ev with
  | EvDb f' _ => f' = f
  | _ => True
  end.

(** An event of an action that only consults: the access policy, a
    catalog statement, [resource_show], or the Table Engine. *)
Definition consulting_event (ev : event) : Prop :=
  match ev with
  | EvCheckAccess _ _ | EvExecute _ _ _ | EvDb _ _ => True
  | EvAction action _ => action = "resource_show"
  | _ => False
  end.

(** Neither a call to the Table Engine nor a call of the flag
    synchronizer. *)
Definition no_table_event (ev : event) : Prop :=
  match ev with
  | EvDb _ _ | EvSetFlag _ _ => False
  | _ => True
  end.

(** Not a call through [get_action]. *)
Definition no_action_event (ev : event) : Prop :=
  match ev with
  | EvAction _ _ => False
  | _ => True
  end.

(** An event of [datastore_info]: every statement it runs goes to the
    engine of [url]; besides the access check and [resource_show] it
    calls nothing else. *)
Definition info_statement_on (url : value) (ev : event) : Prop :=
  match ev with
  | EvExecute url' _ _ => url' = url
  | EvAction action arg =>
      action = "resource_show" \/ arg !! "connection_url" = Some url
  | EvCheckAccess _ _ => True
  | _ => False
  end.

(** The resource a privacy toggle works on: the id of the request when
    it has one, its resource_id otherwise. *)
Definition permission_target (data_dict : gmap string value) : option value :=
  match data_dict !! "id" with
  | Some id => Some id
  | None => data_dict !! "resource_id"
  end.

(** What a privacy toggle hands to the access policy and to the Table
    Engine: the request with the target as resource_id and the write url
    as connection_url. *)
Definition permission_request (data_dict : gmap string value)
    (rid : value) (write_url : string) : gmap string value :=
  <["connection_url" := VStr write_url]> (<["resource_id" := rid]> data_dict).

(** An event of a privacy toggle whose call to the Table Engine is
    recorded as [engine_call]: the catalog statement on real tables, the
    access check for changing permissions, or that call. *)
Definition permission_event (engine_call : string) (ev : event) : Prop :=
  match ev with
  | EvExecute _ q _ => q = select_real_table
  | EvCheckAccess action _ => action = "datastore_change_permissions"
  | EvAction action _ => action = engine_call
  | _ => False
  end.

(** ** A concrete backend and more requests *)

Module DemoBackend.
Import Demo.

(** Every table has the internal columns and three columns of data. *)
Definition demo_columns (_ : datastore) (_ : value)
    : outcome (list (string * string)) :=
  Ok [("_id", "integer"); ("_full_text", "tsvector");
      ("a", "numeric"); ("measured", "timestamp without time zone");
      ("name", "text")].

Definition demo_count (d : datastore) (id : value) : outcome Z :=
  match id with
  | VStr s => Ok (Z.of_nat (length (default [] (table_rows d !! s))))
  | _ => Raise (BackendError "relation does not exist")
  end.

Definition demo_backend : backend :=
  {| information_schema_columns := demo_columns;
     count_ids := demo_count;
     db_make_private := fun _ _ d => (Ok tt, d);
     db_make_public := fun _ _ d => (Ok tt, d) |}.

(** The collaborators with a validation that wants a resource_id. *)
Definition demo_strict : collaborators :=
  {| config := demo_config;
     _validate := fun d _ _ =>
       match d !! "resource_id" with
       | Some _ => (d, ∅)
       | None => (d, {[ "resource_id" := VList [VStr "Missing value"] ]})
       end;
     check_access_policy := check_access_policy demo;
     resource_show := resource_show demo;
     resource_create := resource_create demo;
     resource_update := resource_update demo;
     datapusher_submit := datapusher_submit demo;
     plugin_loaded := plugin_loaded demo;
     db_call := db_call demo;
     _is_valid_table_name := _is_valid_table_name demo;
     get_list := get_list demo;
     sqlparse_split := sqlparse_split demo;
     solr_run := solr_run demo;
     index_package := index_package demo;
     json_loads := json_loads demo |}.

(** The collaborators with a Table Engine that rejects the data of
    every [db.create]. *)
Definition demo_bad_data : collaborators :=
  {| config := demo_config;
     _validate := _validate demo;
     check_access_policy := check_access_policy demo;
     resource_show := resource_show demo;
     resource_create := resource_create demo;
     resource_update := resource_update demo;
     datapusher_submit := datapusher_submit demo;
     plugin_loaded := plugin_loaded demo;
     db_call := fun f c data_dict d =>
       match f with
       | db_create => (Raise (InvalidDataError "field a: not a number"), d)
       | _ => db_call demo f c data_dict d
       end;
     _is_valid_table_name := _is_valid_table_name demo;
     get_list := get_list demo;
     sqlparse_split := sqlparse_split demo;
     solr_run := solr_run demo;
     index_package := index_package demo;
     json_loads := json_loads demo |}.

(** delete the whole table of the managed resource *)
Definition delete_managed : gmap string value :=
  {[ "resource_id" := VStr "res-ds" ]}.

(** create a table for the uploaded file that has none yet *)
Definition create_on_file : gmap string value :=
  {[ "resource_id" := VStr "res-file"; "force" := VBool true ]}.

Definition create_with_both : gmap string value :=
  {[ "resource_id" := VStr "res-ds";
     "resource" := VDict {[ "package_id" := VStr "pkg-public" ]} ]}.

Definition create_bad_alias : gmap string value :=
  {[ "resource_id" := VStr "res-ds";
     "aliases" := VList [VStr "fine"; VStr "_hidden"] ]}.


Definition flag_of_unknown : gmap string value :=
  {[ "resource_id" := VStr "no-such-resource" ]}.

Definition flag_of_uploaded : gmap string value :=
  {[ "resource_id" := VStr "res-up" ]}.

Definition info_uploaded : gmap string value := {[ "id" := VStr "res-up" ]}.

Definition info_file : gmap string value := {[ "id" := VStr "res-file" ]}.

Definition exists_uploaded : gmap string value :=
  {[ "resource_id" := VStr "res-up"; "connection_url" := VStr write_url ]}.

(** the id of the request takes the place of its resource_id *)
Definition permissions_managed : gmap string value :=
  {[ "id" := VStr "res-ds"; "resource_id" := VStr "res-up" ]}.

Definition permissions_file : gmap string value :=
  {[ "resource_id" := VStr "res-file" ]}.

Definition permissions_unknown : gmap string value :=
  {[ "id" := VStr "no-such-resource" ]}.

End DemoBackend.

(** * Properties of the actions *)

Create HintDb action_unfold.
#[global] Hint Unfold check_access action_resource_show action_resource_create
  action_resource_update action_datapusher_submit db execute config_item
  _get_or_bust get_model pop_connection_url dict_item item_of
  _check_read_only require_real_table extras_datastore_active
  package_private : action_unfold.

(** Reduce the monad operations that are applied to a world. *)
Ltac msimpl :=
  unfold bind, ret, raise, log, get_world, on_registry in *;
  cbn [result_of world_of trace_of fst snd app negb
       ckan_db datastore_db solr_index
       set_ckan_db set_datastore_db set_solr_index] in *.

(** Run the action symbolically, splitting on every outcome a
    collaborator or a lookup may have. *)
Ltac innermost t :=
  lazymatch t with
  | context [match ?x with _ => _ end] => innermost x
  | _ => t
  end.

Ltac mcase :=
  match goal with
  | H : ?x = _ |- context [match ?x with _ => _ end] => rewrite H
  | |- context [match ?x with _ => _ end] =>
      let y := innermost x in destruct y eqn:?
  end.

Lemma dict_lookup_insert_eq k v (d : gmap string value) :
  (<[k := v]> d) !! k = Some v.
Proof. apply lookup_insert_eq. Qed.

Lemma dict_lookup_insert_ne k k' v (d : gmap string value) :
  k' <> k -> (<[k' := v]> d) !! k = d !! k.
Proof. apply lookup_insert_ne. Qed.

Lemma dict_lookup_delete_eq k (d : gmap string value) :
  (delete k d) !! k = None.
Proof. apply lookup_delete_eq. Qed.

Lemma dict_lookup_delete_ne k k' (d : gmap string value) :
  k' <> k -> (delete k' d) !! k = d !! k.
Proof. apply lookup_delete_ne. Qed.

Lemma dict_get_default_insert_eq k dflt v (d : gmap string value) :
  dict_get_default k dflt (<[k := v]> d) = v.
Proof. unfold dict_get_default. by rewrite lookup_insert_eq. Qed.

Lemma dict_get_default_insert_ne k k' dflt v (d : gmap string value) :
  k' <> k ->
  dict_get_default k dflt (<[k' := v]> d) = dict_get_default k dflt d.
Proof. intros. unfold dict_get_default. by rewrite lookup_insert_ne. Qed.

Lemma dict_get_default_delete_ne k k' dflt (d : gmap string value) :
  k' <> k ->
  dict_get_default k dflt (delete k' d) = dict_get_default k dflt d.
Proof. intros. unfold dict_get_default. by rewrite lookup_delete_ne. Qed.

Lemma dict_get_insert_eq k v (d : gmap string value) :
  dict_get k (<[k := v]> d) = v.
Proof. unfold dict_get. by rewrite lookup_insert_eq. Qed.

Lemma dict_get_insert_ne k k' v (d : gmap string value) :
  k' <> k -> dict_get k (<[k' := v]> d) = dict_get k d.
Proof. intros. unfold dict_get. by rewrite lookup_insert_ne. Qed.

Lemma dict_get_delete_ne k k' (d : gmap string value) :
  k' <> k -> dict_get k (delete k' d) = dict_get k d.
Proof. intros. unfold dict_get. by rewrite lookup_delete_ne. Qed.

(** Lookups in a dictionary that was just updated. *)
Ltac dict_simpl :=
  repeat match goal with
  | |- context [(<[?k := _]> _) !! ?k] => rewrite dict_lookup_insert_eq
  | |- context [(<[_ := _]> _) !! _] =>
      rewrite dict_lookup_insert_ne by discriminate
  | |- context [(delete ?k _) !! ?k] => rewrite dict_lookup_delete_eq
  | |- context [(delete _ _) !! _] =>
      rewrite dict_lookup_delete_ne by discriminate
  | |- context [dict_get ?k (<[?k := _]> _)] => rewrite dict_get_insert_eq
  | |- context [dict_get _ (<[_ := _]> _)] =>
      rewrite dict_get_insert_ne by discriminate
  | |- context [dict_get _ (delete _ _)] =>
      rewrite dict_get_delete_ne by discriminate
  | |- context [dict_get_default ?k _ (<[?k := _]> _)] =>
      rewrite dict_get_default_insert_eq
  | |- context [dict_get_default _ _ (<[_ := _]> _)] =>
      rewrite dict_get_default_insert_ne by discriminate
  | |- context [dict_get_default _ _ (delete _ _)] =>
      rewrite dict_get_default_delete_ne by discriminate
  end.

Ltac mrun :=
  repeat (autounfold with action_unfold in *; msimpl; dict_simpl;
          try mcase; simplify_eq; msimpl).

(** Find an event in an explicit trace. *)
Ltac find_event :=
  first [apply list_elem_of_here | apply list_elem_of_further; find_event].

(** Case analysis on a hypothesis of membership in a trace made of
    explicit events and of parts known through a [Forall]. *)
Ltac inv_trace H :=
  cbn [app] in H; rewrite ?app_nil_r in H;
  repeat
    (lazymatch type of H with
     | _ ∈ [] => by apply elem_of_nil in H
     | _ ∈ _ :: _ =>
         apply elem_of_cons in H; destruct H as [H|H]; [simplify_eq|]
     | _ ∈ _ ++ _ => apply elem_of_app in H; destruct H as [H|H]
     | _ ∈ ?l =>
         match goal with
         | Hf : Forall _ l |- _ =>
             rewrite Forall_forall in Hf; apply Hf in H; by cbn in H
         end
     end).

(** An event of another kind is not in an explicit trace. *)
Ltac not_in_trace := let H := fresh "Hin" in intros H; inv_trace H.

Section Properties.
Context (E : collaborators).

(** C1. When the sql holds more than one statement, [datastore_search_sql]
    raises the ValidationError of the single-statement check with an
    empty trace and an unchanged world: neither the access policy nor
    the Table Engine has been called. When it holds at most one
    statement, the next thing the action does is to evaluate the access
    policy on the request. *)
Theorem C1_single_statement_check_comes_first
    (ctx : context) (data_dict : gmap string value) (sql : value) (w : world) :
  data_dict !! "sql" = Some sql ->
  (1 < length (sqlparse_split E sql) ->
   datastore_search_sql E ctx data_dict w
   = (Raise (ValidationError not_single_statement_error), w, [])) /\
  (length (sqlparse_split E sql) <= 1 ->
   exists rest,
     trace_of (datastore_search_sql E ctx data_dict w)
     = EvCheckAccess "datastore_search_sql" data_dict :: rest).
Proof.
  intros Hsql. unfold datastore_search_sql, _get_or_bust, is_single_statement.
  msimpl. rewrite Hsql. msimpl.
  split; intros Hlen.
  - destruct (Nat.leb_spec (length (sqlparse_split E sql)) 1); [lia|]. reflexivity.
  - destruct (Nat.leb_spec (length (sqlparse_split E sql)) 1); [|lia].
    mrun; eauto.
Qed.

(** C6. Whatever the input, every call [datastore_search_sql] makes to
    the backend is a [db.search_sql] whose connection_url is the value
    configured under ckan.datastore.read_url; it is the write url only
    if the configuration gives both keys the same string. A call that
    returns a result has made such a call. *)
Theorem C6_search_sql_runs_on_read_url
    (ctx : context) (data_dict : gmap string value) (w : world) :
  let run := datastore_search_sql E ctx data_dict w in
  (forall url q id, EvExecute url q id ∉ trace_of run) /\
  (forall f d, EvDb f d ∈ trace_of run ->
     f = db_search_sql /\
     exists read_url,
       config E !! "ckan.datastore.read_url" = Some read_url /\
       d !! "connection_url" = Some (VStr read_url) /\
       forall write_url,
         config E !! "ckan.datastore.write_url" = Some write_url ->
         write_url <> read_url ->
         d !! "connection_url" <> Some (VStr write_url)) /\
  (forall result, result_of run = Ok result ->
     exists d, EvDb db_search_sql d ∈ trace_of run).
Proof.
  cbn zeta. unfold datastore_search_sql.
  split_and!.
  - intros url q id. mrun; not_in_trace.
  - intros f d. mrun; try (by not_in_trace).
    all: intros Hin; inv_trace Hin.
    all: split; [done|]; eexists; split; [done|]; rewrite lookup_insert_eq;
      split; [done|]; intros; congruence.
  - intros result. mrun; try done; intros; eexists; find_event.
Qed.

(** C10. Whatever the input, every statement [datastore_search] runs on
    the catalog and every call it makes to the Table Engine carries the
    value configured under ckan.datastore.write_url as connection_url,
    which is not the read-only url when the two are configured with
    different strings. Every call that passes validation with a
    resource_id starts by consulting the catalog over that connection. *)
Theorem C10_search_runs_on_write_url
    (ctx : context) (data_dict : gmap string value) (w : world) :
  let run := datastore_search E ctx data_dict w in
  (forall url q id, EvExecute url q id ∈ trace_of run ->
     exists write_url,
       config E !! "ckan.datastore.write_url" = Some write_url /\
       url = VStr write_url /\
       forall read_url,
         config E !! "ckan.datastore.read_url" = Some read_url ->
         read_url <> write_url -> url <> VStr read_url) /\
  (forall f d, EvDb f d ∈ trace_of run ->
     f = db_search /\
     exists write_url,
       config E !! "ckan.datastore.write_url" = Some write_url /\
       d !! "connection_url" = Some (VStr write_url) /\
       forall read_url,
         config E !! "ckan.datastore.read_url" = Some read_url ->
         read_url <> write_url ->
         d !! "connection_url" <> Some (VStr read_url)) /\
  (forall validated errors rid write_url,
     search_validated E ctx data_dict = (validated, errors) ->
     truthy (VDict errors) = false ->
     validated !! "resource_id" = Some rid ->
     config E !! "ckan.datastore.write_url" = Some write_url ->
     exists rest,
       trace_of run = EvExecute (VStr write_url) select_alias_of rid :: rest).
Proof.
  cbn zeta. unfold datastore_search.
  split_and!.
  - intros url q id. mrun; try (by not_in_trace).
    all: intros Hin; inv_trace Hin.
    all: eexists; split_and!; [done..|]; intros; congruence.
  - intros f d. mrun; try (by not_in_trace).
    all: intros Hin; inv_trace Hin.
    all: split; [done|]; eexists; split; [done|].
    all: rewrite ?lookup_insert_ne by done; rewrite lookup_insert_eq.
    all: split; [done|]; intros; congruence.
  - intros validated errors rid write_url Hv Herr Hrid Hurl.
    rewrite Hv, Herr. mrun; eauto.
Qed.
(** C5. In [datastore_search], when the first catalog row for the
    supplied identifier names the table it is an alias of and the
    identifier is not whitelisted, every evaluation of the access
    policy and every call to the Table Engine is made with resource_id
    set to that table, and the access policy is evaluated right after
    the catalog lookup. When the supplied identifier is
    [_table_metadata], the access policy is never evaluated. *)
Theorem C5_search_checks_access_on_the_real_table
    (ctx : context) (data_dict validated errors : gmap string value)
    (rid : value) (w : world) :
  search_validated E ctx data_dict = (validated, errors) ->
  validated !! "resource_id" = Some rid ->
  let run := datastore_search E ctx data_dict w in
  (forall real,
     py_in rid WHITELISTED_RESOURCES = false ->
     head (alias_of_rows (catalog (datastore_db w)) rid) = Some (Some real) ->
     real <> "" ->
     (forall a d, EvCheckAccess a d ∈ trace_of run ->
        a = "datastore_search" /\ d !! "resource_id" = Some (VStr real)) /\
     (forall f d, EvDb f d ∈ trace_of run ->
        d !! "resource_id" = Some (VStr real)) /\
     (truthy (VDict errors) = false ->
      is_Some (config E !! "ckan.datastore.write_url") ->
      exists url d rest,
        d !! "resource_id" = Some (VStr real) /\
        trace_of run
        = EvExecute url select_alias_of rid
            :: EvCheckAccess "datastore_search" d :: rest)) /\
  (rid = VStr "_table_metadata" ->
   forall a d, EvCheckAccess a d ∉ trace_of run).
Proof.
  intros Hv Hrid. cbn zeta. unfold datastore_search. rewrite Hv.
  split.
  - intros real Hwl Hhead Hreal. unfold alias_of_rows in Hhead.
    assert (Htruthy : truthy (VStr real) = true).
    { cbn. destruct (String.eqb_spec real ""); done. }
    assert (Hfound : negb (0 <? length (List.filter (name_matches rid)
                                          (catalog (datastore_db w)))) = false).
    { destruct (List.filter _ _); [done|reflexivity]. }
    apply (f_equal negb) in Hwl. cbn [negb] in Hwl.
    split_and!.
    + intros a d. mrun; try (by not_in_trace).
      all: intros Hin; inv_trace Hin; by rewrite lookup_insert_eq.
    + intros f d. mrun; try (by not_in_trace).
      all: intros Hin; inv_trace Hin; by rewrite lookup_insert_eq.
    + intros Herr [url Hurl]. rewrite Herr.
      mrun; eexists _, _, _; (split; [|reflexivity]); by rewrite lookup_insert_eq.
  - intros -> a d. mrun; try (by not_in_trace).
Qed.
(** *** The trace of the flag synchronizer *)

Lemma patch_first_match_trace rid upd resources w :
  world_of (patch_first_match rid upd resources w) = w /\
  trace_of (patch_first_match rid upd resources w) = [].
Proof.
  induction resources as [|resource rest IH]; [done|].
  cbn [patch_first_match]. destruct IH as [IHw IHt].
  destruct (patch_first_match rid upd rest w) as [[r w'] t] eqn:Hrest.
  cbn in IHw, IHt. subst.
  unfold bind. mrun; try done.
  all: rewrite Hrest; by mrun.
Qed.

Lemma patch_record_trace rid upd record w :
  Forall index_event (trace_of (patch_record E rid upd record w)).
Proof.
  unfold patch_record.
  mrun; try by constructor.
  all: destruct (patch_first_match_trace rid upd l w) as [Hw Ht].
  all: destruct (patch_first_match rid upd l w) as [[r w'] t] eqn:Hp.
  all: cbn in Hw, Ht; subst; mrun; repeat constructor.
Qed.

Lemma for_each_trace {A} (P : event -> Prop) (body : A -> M unit) l w :
  (forall x w', Forall P (trace_of (body x w'))) ->
  Forall P (trace_of (for_each l body w)).
Proof.
  intros Hbody. revert w. induction l as [|x l IH]; intros w; [constructor|].
  cbn [for_each]. unfold bind.
  specialize (Hbody x w).
  destruct (body x w) as [[[] w1] t1]; cbn in Hbody |- *; [|done].
  specialize (IH w1).
  destruct (for_each l body w1) as [[r w2] t2]; cbn in IH |- *.
  by apply Forall_app.
Qed.

Lemma set_datastore_active_flag_trace data_dict flag w :
  exists rest,
    trace_of (set_datastore_active_flag E data_dict flag w)
    = EvSetFlag data_dict flag :: rest /\
    Forall flag_event rest.
Proof.
  unfold set_datastore_active_flag.
  mrun; eexists; (split; [reflexivity|]);
    repeat (constructor; [done|]); try by constructor.
  match goal with H : for_each ?l ?b ?w = _ |- _ =>
    pose proof (for_each_trace index_event b l w) as Hf; rewrite H in Hf
  end.
  eapply Forall_impl; [apply Hf; apply patch_record_trace|].
  by intros [].
Qed.

(** Record what is known of the traces of the calls to the flag
    synchronizer that the symbolic run has met. *)
Ltac flag_facts :=
  repeat match goal with
  | H : set_datastore_active_flag ?E' ?d ?f ?w = (_, _, ?l) |- _ =>
      is_var l;
      let Hf := fresh "Hflag" in
      let rest := fresh "rest" in
      let Heq := fresh in
      destruct (set_datastore_active_flag_trace d f w) as (rest & Heq & Hf);
      rewrite H in Heq; cbn [trace_of snd] in Heq; subst l
  end.
Lemma upsert_without_real_table
    (ctx : context) (data_dict validated errors : gmap string value)
    (rid : value) (w : world) :
  real_table_rows (catalog (datastore_db w)) rid = [] ->
  upsert_validated E ctx data_dict = (validated, errors) ->
  validated !! "resource_id" = Some rid ->
  missing_table_behaviour E "datastore_upsert" ctx validated errors rid w
    (datastore_upsert E ctx data_dict w).
Proof.
  intros Hnone Hv Hrid. unfold missing_table_behaviour, datastore_upsert.
  rewrite Hv.
  assert (Hlen : negb (0 <? length (real_table_rows (catalog (datastore_db w)) rid)) = true)
    by (by rewrite Hnone).
  split_and!.
  - intros f d. mrun; not_in_trace.
  - mrun; eauto.
  - intros Herr Hacc Hgate [url Hurl]. rewrite Herr.
    destruct Hgate as [Hforce|(rid' & res & Hrid' & Hshow & Htype)].
    + apply (f_equal negb) in Hforce. cbn [negb] in Hforce. mrun; done.
    + assert (rid' = rid) as -> by congruence.
      apply (f_equal negb) in Htype. cbn [negb] in Htype. mrun; done.
Qed.

Lemma delete_without_real_table
    (ctx : context) (data_dict validated errors : gmap string value)
    (rid : value) (w : world) :
  real_table_rows (catalog (datastore_db w)) rid = [] ->
  delete_validated E ctx data_dict = (validated, errors) ->
  validated !! "resource_id" = Some rid ->
  filters_well_typed data_dict = true ->
  missing_table_behaviour E "datastore_delete" ctx validated errors rid w
    (datastore_delete E ctx data_dict w).
Proof.
  intros Hnone Hv Hrid Hfilters.
  unfold missing_table_behaviour, datastore_delete.
  unfold filters_well_typed in Hfilters.
  rewrite Hv.
  assert (Hlen : negb (0 <? length (real_table_rows (catalog (datastore_db w)) rid)) = true)
    by (by rewrite Hnone).
  split_and!.
  - intros f d. mrun; not_in_trace.
  - mrun; eauto.
  - intros Herr Hacc Hgate [url Hurl]. rewrite Herr.
    destruct Hgate as [Hforce|(rid' & res & Hrid' & Hshow & Htype)].
    + apply (f_equal negb) in Hforce. cbn [negb] in Hforce. mrun; done.
    + assert (rid' = rid) as -> by congruence.
      apply (f_equal negb) in Htype. cbn [negb] in Htype. mrun; done.
Qed.

Lemma delete_with_ill_typed_filters
    (ctx : context) (data_dict : gmap string value) (w : world) :
  filters_well_typed data_dict = false ->
  exists e, datastore_delete E ctx data_dict w = (Raise e, w, []).
Proof.
  unfold filters_well_typed, datastore_delete. intros Hfilters.
  destruct (dict_get_default "filters" VNone data_dict); try done; eauto.
Qed.

(** C4 (amended). When no catalog row with alias_of NULL carries the
    resource id of the validated request, [datastore_upsert] and
    [datastore_delete] never call the Table Engine and never return a
    result: they raise. Once validation, the access policy and the
    read-only gate have let the request through (and a write url is
    configured), what they raise is the not-found error of the
    existence check. A delete request whose filters are neither a
    dictionary nor [None] is rejected before anything else. *)
Theorem C4_missing_table_is_never_handed_to_the_engine
    (ctx : context) (data_dict : gmap string value) (rid : value) (w : world) :
  real_table_rows (catalog (datastore_db w)) rid = [] ->
  (forall validated errors,
     upsert_validated E ctx data_dict = (validated, errors) ->
     validated !! "resource_id" = Some rid ->
     missing_table_behaviour E "datastore_upsert" ctx validated errors rid w
       (datastore_upsert E ctx data_dict w)) /\
  (forall validated errors,
     delete_validated E ctx data_dict = (validated, errors) ->
     validated !! "resource_id" = Some rid ->
     (filters_well_typed data_dict = true ->
      missing_table_behaviour E "datastore_delete" ctx validated errors rid w
        (datastore_delete E ctx data_dict w)) /\
     (filters_well_typed data_dict = false ->
      exists e, datastore_delete E ctx data_dict w = (Raise e, w, []))).
Proof.
  intros Hnone. split; intros validated errors Hv Hrid.
  - by apply upsert_without_real_table.
  - split; intros Hfilters.
    + by apply delete_without_real_table.
    + by apply delete_with_ill_typed_filters.
Qed.
Lemma upsert_read_only_gate
    (ctx : context) (data_dict validated errors : gmap string value) (w : world) :
  upsert_validated E ctx data_dict = (validated, errors) ->
  truthy (VDict errors) = false ->
  read_only_gate_behaviour E "datastore_upsert" ctx validated w
    (datastore_upsert E ctx data_dict w).
Proof.
  intros Hv Herr. unfold read_only_gate_behaviour, datastore_upsert.
  cbn zeta. rewrite Hv, Herr.
  split.
  - intros Hforce Hacc rid res Hrid Hshow.
    apply (f_equal negb) in Hforce. cbn [negb] in Hforce.
    split; intros Htype; apply (f_equal negb) in Htype; cbn [negb] in Htype.
    + by mrun.
    + intros write_url Hurl. mrun; eauto.
  - intros Hforce.
    apply (f_equal negb) in Hforce. cbn [negb] in Hforce.
    split.
    + intros arg. mrun; not_in_trace.
    + intros Hacc rid write_url Hrid Hurl. mrun; eauto.
Qed.
Lemma delete_read_only_gate
    (ctx : context) (data_dict validated errors : gmap string value) (w : world) :
  delete_validated E ctx data_dict = (validated, errors) ->
  truthy (VDict errors) = false ->
  filters_well_typed data_dict = true ->
  read_only_gate_behaviour E "datastore_delete" ctx validated w
    (datastore_delete E ctx data_dict w).
Proof.
  intros Hv Herr Hfilters. unfold read_only_gate_behaviour. cbn zeta.
  unfold datastore_delete. unfold filters_well_typed in Hfilters.
  rewrite Hv, Herr.
  split.
  - intros Hforce Hacc rid res Hrid Hshow.
    apply (f_equal negb) in Hforce. cbn [negb] in Hforce.
    split; intros Htype; apply (f_equal negb) in Htype; cbn [negb] in Htype.
    + destruct (dict_get_default "filters" VNone data_dict); try done; by mrun.
    + intros write_url Hurl.
      destruct (dict_get_default "filters" VNone data_dict); try done.
      all: mrun; eauto.
  - intros Hforce.
    apply (f_equal negb) in Hforce. cbn [negb] in Hforce.
    split.
    + intros arg. mrun; flag_facts; not_in_trace.
    + intros Hacc rid write_url Hrid Hurl.
      destruct (dict_get_default "filters" VNone data_dict); try done.
      all: mrun; eauto.
Qed.

(** C3 (amended). For [datastore_upsert] and [datastore_delete] on a
    request that passed validation: without force, and once the access
    policy has let the caller through, a resource whose url_type as
    reported by [resource_show] is not ["datastore"] makes the action
    raise the read-only validation error, before any catalog lookup or
    Table Engine call; a resource whose url_type is ["datastore"]
    passes the gate; with force the gate is bypassed:
    [resource_show] is not consulted and the action goes straight from
    the access check to the existence check on the catalog. *)
Theorem C3_read_only_gate_follows_url_type
    (ctx : context) (data_dict validated errors : gmap string value) (w : world) :
  truthy (VDict errors) = false ->
  (upsert_validated E ctx data_dict = (validated, errors) ->
   read_only_gate_behaviour E "datastore_upsert" ctx validated w
     (datastore_upsert E ctx data_dict w)) /\
  (delete_validated E ctx data_dict = (validated, errors) ->
   filters_well_typed data_dict = true ->
   read_only_gate_behaviour E "datastore_delete" ctx validated w
     (datastore_delete E ctx data_dict w)).
Proof.
  intros Herr. split.
  - intros Hv. by apply upsert_read_only_gate with errors.
  - intros Hv Hfilters. by apply delete_read_only_gate with errors.
Qed.

(** C8 (amended). When the validated request carries a resource
    specification with a url (and no resource_id), [datastore_create]
    never calls the Table Engine, never consults the catalog, leaves
    the datastore as it was and never returns a table description. Once
    validation and the access policy have let the request through and
    [resource_create] has returned the new resource: if the datapusher
    plugin is loaded, the action submits the id of the new resource to
    [datapusher_submit] and returns [None]; if it is not loaded, the
    action raises a validation error, the resource having been
    created. *)
Theorem C8_url_resource_is_left_to_the_datapusher
    (ctx : context) (data_dict validated errors spec : gmap string value)
    (w : world) :
  create_validated E ctx data_dict = (validated, errors) ->
  validated !! "resource" = Some (VDict spec) ->
  validated !! "resource_id" = None ->
  is_Some (spec !! "url") ->
  let run := datastore_create E ctx data_dict w in
  (forall f d, EvDb f d ∉ trace_of run) /\
  (forall url q id, EvExecute url q id ∉ trace_of run) /\
  datastore_db (world_of run) = datastore_db w /\
  (forall result, result_of run = Ok result -> result = VNone) /\
  (truthy (VDict errors) = false ->
   check_access_policy E "datastore_create" ctx validated (ckan_db w) = Ok tt ->
   forall resource_dict reg id,
     resource_create E ctx spec (ckan_db w) = (Ok resource_dict, reg) ->
     resource_dict !! "id" = Some id ->
     let submission : gmap string value :=
       {[ "resource_id" := id; "set_url_type" := VBool true ]} in
     (plugin_loaded E "datapusher" = true ->
      forall out reg',
        datapusher_submit E ctx submission reg = (Ok out, reg') ->
        run = (Ok VNone, set_ckan_db reg' w,
               [EvCheckAccess "datastore_create" validated;
                EvAction "resource_create" spec;
                EvAction "datapusher_submit" submission])) /\
     (plugin_loaded E "datapusher" = false ->
      run = (Raise (ValidationError datapusher_disabled_error),
             set_ckan_db reg w,
             [EvCheckAccess "datastore_create" validated;
              EvAction "resource_create" spec]))).
Proof.
  intros Hv Hspec Hrid Hurl. cbn zeta. unfold datastore_create.
  rewrite Hv, Hspec, Hrid.
  assert (Hhas : bool_decide (is_Some (spec !! "url")) = true)
    by (by apply bool_decide_eq_true).
  rewrite Hhas.
  split_and!.
  - intros f d. mrun; not_in_trace.
  - intros url q id. mrun; not_in_trace.
  - mrun; by destruct w.
  - intros result. mrun; congruence.
  - intros Herr Hacc resource_dict reg id Hcreate Hid. rewrite Herr.
    split.
    + intros Hplugin out reg' Hsubmit. apply (f_equal negb) in Hplugin.
      cbn [negb] in Hplugin. by mrun.
    + intros Hplugin. apply (f_equal negb) in Hplugin.
      cbn [negb] in Hplugin. by mrun.
Qed.

(** *** The effect of the flag synchronizer on the stores *)

Lemma for_each_world {A} (R : world -> world -> Prop) (body : A -> M unit) l w :
  (forall w, R w w) ->
  (forall w1 w2 w3, R w1 w2 -> R w2 w3 -> R w1 w3) ->
  (forall x w', R w' (world_of (body x w'))) ->
  R w (world_of (for_each l body w)).
Proof.
  intros Hrefl Htrans Hbody. revert w.
  induction l as [|x l IH]; intros w; [apply Hrefl|].
  cbn [for_each]. unfold bind.
  specialize (Hbody x w).
  destruct (body x w) as [[[] w1] t1]; cbn in Hbody |- *; [|done].
  specialize (IH w1).
  destruct (for_each l body w1) as [[r w2] t2]; cbn in IH |- *.
  by eapply Htrans.
Qed.

(** Patching a record of the index leaves the two databases alone. *)
Definition same_databases (w w' : world) : Prop :=
  ckan_db w' = ckan_db w /\ datastore_db w' = datastore_db w.

Lemma patch_record_world rid upd record w :
  same_databases w (world_of (patch_record E rid upd record w)).
Proof.
  unfold patch_record, same_databases.
  mrun; try done.
  all: destruct (patch_first_match_trace rid upd l w) as [Hw Ht].
  all: destruct (patch_first_match rid upd l w) as [[r w'] t] eqn:Hp.
  all: cbn in Hw, Ht; subst; by mrun.
Qed.

Lemma set_datastore_active_flag_world data_dict flag w :
  let run := set_datastore_active_flag E data_dict flag w in
  datastore_db (world_of run) = datastore_db w /\
  match data_dict !! "resource_id" ≫= select_resource (ckan_db w) with
  | Some (id, row) =>
      ckan_db (world_of run) = registry_with_flag (ckan_db w) id row flag /\
      EvCommit ∈ trace_of run
  | None => world_of run = w /\ exists e, result_of run = Raise e
  end.
Proof.
  cbn zeta. unfold set_datastore_active_flag.
  destruct (data_dict !! "resource_id") as [rid|] eqn:Hrid; cbn [mbind option_bind].
  2: { mrun. eauto. }
  destruct (select_resource (ckan_db w) rid) as [[id row]|] eqn:Hsel.
  2: { mrun. eauto. }
  assert (rid = VStr id) as ->.
  { unfold select_resource in Hsel. destruct rid; try done.
    destruct (resource_table (ckan_db w) !! s); by simplify_eq/=. }
  mrun; try (split_and!; [done..|find_event]).
  match goal with H : for_each ?l ?b ?w' = _ |- _ =>
    pose proof (for_each_world same_databases b l w') as Hw; rewrite H in Hw
  end.
  destruct Hw as [Hreg Hds].
  - done.
  - intros w1 w2 w3 [??] [??]. split; congruence.
  - intros. apply patch_record_world.
  - cbn in Hreg, Hds. split_and!; [done..|find_event].
Qed.

Lemma select_resource_lookup reg rid id row :
  select_resource reg rid = Some (id, row) ->
  rid = VStr id /\ resource_table reg !! id = Some row.
Proof.
  unfold select_resource. destruct rid; try done.
  destruct (resource_table reg !! s) eqn:Hrow; intros; by simplify_eq/=.
Qed.

(** *** The private flag of [datastore_create] *)

Lemma registry_with_flag_private reg id row flag rid :
  resource_table reg !! id = Some row ->
  owning_package_private (registry_with_flag reg id row flag) rid <->
  owning_package_private reg rid.
Proof.
  intros Hrow. unfold owning_package_private, Resource_get.
  destruct rid as [| | |s| |]; try (split; intros (?&?&?&?); done).
  cbn [registry_with_flag resource_table package_table].
  destruct (decide (id = s)) as [->|Hne].
  - rewrite lookup_insert_eq. split.
    + intros (row' & pkg & Hr & Hp & Hpriv). simplify_eq. cbn in Hp. eauto.
    + intros (row' & pkg & Hr & Hp & Hpriv). simplify_eq.
      eexists _, pkg. split_and!; [done | by cbn | done].
  - by rewrite lookup_insert_ne.
Qed.

Lemma set_datastore_active_flag_private data_dict flag w rid :
  owning_package_private
    (ckan_db (world_of (set_datastore_active_flag E data_dict flag w))) rid <->
  owning_package_private (ckan_db w) rid.
Proof.
  destruct (set_datastore_active_flag_world data_dict flag w) as [_ Hreg].
  destruct (data_dict !! "resource_id" ≫= select_resource (ckan_db w))
    as [[id row]|] eqn:Hsel.
  - destruct Hreg as [-> _].
    destruct (data_dict !! "resource_id") as [rid'|]; [|done].
    apply select_resource_lookup in Hsel as [_ Hrow].
    by apply registry_with_flag_private.
  - by destruct Hreg as [-> _].
Qed.

Lemma validate_aliases_pure aliases w :
  world_of (validate_aliases E aliases w) = w /\
  trace_of (validate_aliases E aliases w) = [].
Proof.
  unfold validate_aliases.
  induction aliases as [|alias aliases IH]; [done|].
  cbn [for_each]. destruct IH as [IHw IHt].
  destruct (for_each aliases _ w) as [[r w'] t] eqn:Hrest.
  cbn in IHw, IHt. subst.
  msimpl. mrun; try done.
  all: rewrite Hrest in *; by simplify_eq.
Qed.

Ltac aliases_facts :=
  repeat match goal with
  | H : validate_aliases ?E' ?l ?w = (_, ?w', ?t) |- _ =>
      let Hw := fresh in let Ht := fresh in
      destruct (validate_aliases_pure l w) as [Hw Ht];
      rewrite H in Hw, Ht; cbn in Hw, Ht; subst w' t; clear H
  end.

(** Record what is known of the worlds the calls to the flag
    synchronizer end in. *)
Ltac flag_worlds :=
  repeat match goal with
  | H : set_datastore_active_flag ?E' ?d ?f ?w = (_, ?w', _) |- _ =>
      lazymatch goal with
      | _ : forall rid, owning_package_private (ckan_db w') rid <-> _ |- _ =>
          fail
      | _ =>
          let Hp := fresh "Hprivate" in
          assert (forall rid,
                    owning_package_private (ckan_db w') rid <->
                    owning_package_private (ckan_db w) rid) as Hp
            by (intros rid;
                pose proof (set_datastore_active_flag_private d f w rid) as Hp;
                by rewrite H in Hp)
      end
  end.

(** Turn the boolean facts of a symbolic run into propositions. *)
Ltac bool_facts :=
  repeat match goal with
  | H : negb _ = true |- _ => apply negb_true_iff in H
  | H : negb _ = false |- _ => apply negb_false_iff in H
  | H : bool_decide _ = true |- _ => apply bool_decide_eq_true in H
  | H : bool_decide _ = false |- _ => apply bool_decide_eq_false in H
  end.

(** The [data_dict] handed to [db.create] by lines 125-157, relative to
    the [data_dict] and the registry these lines start from. *)
Lemma datastore_create_table_private
    (ctx : context) (data_dict : gmap string value) (w : world) :
  let run := datastore_create_table E ctx data_dict w in
  forall d, EvDb db_create d ∈ trace_of run ->
    exists rid,
      d !! "resource_id" = Some rid /\
      (owning_package_private (ckan_db (world_of run)) rid <->
       owning_package_private (ckan_db w) rid) /\
      (is_Some (config E !! "ckan.datastore.read_url") /\
       owning_package_private (ckan_db w) rid ->
       d !! "private" = Some (VBool true)) /\
      (~ (is_Some (config E !! "ckan.datastore.read_url") /\
          owning_package_private (ckan_db w) rid) ->
       d !! "private" = data_dict !! "private").
Proof.
  cbn zeta. intros d. unfold datastore_create_table.
  mrun; aliases_facts; try (by not_in_trace).
  all: flag_facts; flag_worlds; bool_facts.
  all: intros Hin; inv_trace Hin.
  all: eexists; split; [by dict_simpl|]; dict_simpl.
  all: split; [by auto|].
  all: unfold owning_package_private.
  all: split; [try done|]; try done.
  all: try (intros [[? ?] (row' & pkg' & ? & ? & ?)]; congruence).
  all: try (intros []; split; [by apply not_eq_None_Some|by eauto]).
Qed.

(** C9 (amended). Whenever [datastore_create] calls [db.create], the
    [data_dict] it hands over has private set to [True] if
    ckan.datastore.read_url is present in the configuration, whatever
    its value, and the package owning the resource is private; it
    carries the private entry of the validated request, unchanged, if
    the key is absent (legacy mode) or the package is not private. The
    owning package is read in the registry the call ends with, which
    is, for the resource and its package, the one [Resource.get] saw. *)
Theorem C9_private_flag_follows_read_url_and_package
    (ctx : context) (data_dict validated errors : gmap string value)
    (w : world) :
  create_validated E ctx data_dict = (validated, errors) ->
  let run := datastore_create E ctx data_dict w in
  forall d, EvDb db_create d ∈ trace_of run ->
    exists rid,
      d !! "resource_id" = Some rid /\
      (is_Some (config E !! "ckan.datastore.read_url") /\
       owning_package_private (ckan_db (world_of run)) rid ->
       d !! "private" = Some (VBool true)) /\
      (~ (is_Some (config E !! "ckan.datastore.read_url") /\
          owning_package_private (ckan_db (world_of run)) rid) ->
       d !! "private" = validated !! "private").
Proof.
  intros Hv. cbn zeta. intros d. unfold datastore_create. rewrite Hv.
  mrun; try (by not_in_trace).
  all: match goal with
       | H : datastore_create_table _ _ ?dd ?w1 = _ |- _ =>
           pose proof (datastore_create_table_private ctx dd w1 d) as Htail;
           cbn zeta in Htail; rewrite H in Htail;
           cbn [trace_of world_of fst snd] in Htail
       end.
  all: intros Hin; inv_trace Hin.
  all: destruct (Htail Hin) as (rid & Hrid & Hsame & Hset & Hunset).
  all: exists rid; split; [done|].
  all: rewrite Hsame; revert Hunset; dict_simpl; intros Hunset.
  all: by split.
Qed.

(** *** The flag synchronizer *)




(** The revision update of [set_datastore_active_flag] selects no row. *)
Lemma update_revisions_selects_nothing rid extras revs :
  update_revisions rid extras revs = revs.
Proof.
  unfold update_revisions, revision_selected, current_is_True.
  induction revs as [|r revs IH]; [done|].
  cbn [map]. rewrite IH. by rewrite andb_false_r.
Qed.


(** *** When the actions call the flag synchronizer *)

Lemma is_True_datastore_active extras :
  is_True (dict_get "datastore_active" extras) = true <->
  extras !! "datastore_active" = Some (VBool true).
Proof.
  unfold dict_get. destruct (extras !! "datastore_active") as [[| [] | | | |]|];
    cbn; split; (done || congruence).
Qed.

(** X1. [datastore_delete] with filters that are true in the sense of
    Python (a dictionary that is not empty) does not call the flag
    synchronizer and leaves the registry alone. Without such filters,
    a delete that returns a result has called it, with [False], if and
    only if the flag the resource had before the call was [True]. *)
Lemma delete_calls_the_synchronizer
    (ctx : context) (data_dict validated errors : gmap string value)
    (w : world) :
  delete_validated E ctx data_dict = (validated, errors) ->
  let run := datastore_delete E ctx data_dict w in
  (truthy (dict_get "filters" validated) = true ->
   (forall d flag, EvSetFlag d flag ∉ trace_of run) /\
   ckan_db (world_of run) = ckan_db w) /\
  (truthy (dict_get "filters" validated) = false ->
   forall result, result_of run = Ok result ->
     exists rid row,
       validated !! "resource_id" = Some rid /\
       Resource_get (ckan_db w) rid = Some row /\
       (forall d, EvSetFlag d true ∉ trace_of run) /\
       ((exists d, EvSetFlag d false ∈ trace_of run) <->
        row_extras row !! "datastore_active" = Some (VBool true))).
Proof.
  intros Hv. cbn zeta. unfold datastore_delete. rewrite Hv.
  split.
  - intros Hfilters. apply (f_equal negb) in Hfilters. cbn [negb] in Hfilters.
    split.
    + intros d flag. mrun; not_in_trace.
    + mrun; by destruct w.
  - intros Hfilters result.
    apply (f_equal negb) in Hfilters. cbn [negb] in Hfilters.
    mrun; try done; flag_facts; intros _.
    all: eexists _, _; split_and!; [done..| |].
    all: try (intros ?; by not_in_trace).
    all: rewrite <- is_True_datastore_active.
    all: split.
    all: try (intros [? Hin]; inv_trace Hin; done).
    all: intros Htrue; first [congruence | eexists; find_event].
Qed.

Lemma Resource_get_select reg rid row :
  Resource_get reg rid = Some row ->
  exists id, rid = VStr id /\ select_resource reg rid = Some (id, row).
Proof.
  unfold Resource_get, select_resource. destruct rid; try done.
  intros ->. eauto.
Qed.

Lemma registry_with_flag_get reg id row flag :
  exists row',
    Resource_get (registry_with_flag reg id row flag) (VStr id) = Some row' /\
    row_extras row' !! "datastore_active" = Some (VBool flag).
Proof.
  eexists. cbn [Resource_get registry_with_flag resource_table].
  rewrite lookup_insert_eq. split; [done|].
  cbn [with_extras row_extras].
  by rewrite lookup_union_l', lookup_singleton_eq
    by (by rewrite lookup_singleton_eq).
Qed.

(** Lines 125-157 of [datastore_create], when they return a result:
    the flag synchronizer has been called, with [True], if and only if
    the flag of the resource was not [True]; the flag is [True] at the
    end. *)
Lemma datastore_create_table_flag
    (ctx : context) (data_dict : gmap string value) (w : world) result :
  let run := datastore_create_table E ctx data_dict w in
  result_of run = Ok result ->
  exists rid row,
    data_dict !! "resource_id" = Some rid /\
    Resource_get (ckan_db w) rid = Some row /\
    (forall d, EvSetFlag d false ∉ trace_of run) /\
    ((exists d, EvSetFlag d true ∈ trace_of run) <->
     row_extras row !! "datastore_active" <> Some (VBool true)) /\
    exists row',
      Resource_get (ckan_db (world_of run)) rid = Some row' /\
      row_extras row' !! "datastore_active" = Some (VBool true).
Proof.
  cbn zeta. unfold datastore_create_table.
  mrun; aliases_facts; try done; intros _.
  all: repeat match goal with
       | H : set_datastore_active_flag _ ?d ?f ?w0 = _ |- _ =>
           let Hw := fresh "Hworld" in
           pose proof (set_datastore_active_flag_world d f w0) as Hw;
           cbn zeta in Hw; rewrite H in Hw;
           cbn [world_of trace_of result_of fst snd] in Hw;
           revert Hw; dict_simpl; intros [_ Hw];
           revert H
       end; intros.
  all: flag_facts.
  all: match goal with
       | H : Resource_get _ _ = Some _ |- _ =>
           pose proof H as Hget;
           apply Resource_get_select in H as (id & -> & Hsel)
       end.
  all: eexists _, _; split_and!; [done | done | | |].
  all: try (intros ?; by not_in_trace).
  all: try rewrite <- is_True_datastore_active.
  all: bool_facts.
  all: try (split;
            [ intros [? Hin]; inv_trace Hin; congruence
            | intros Htrue; first [congruence | eexists; find_event] ]).
  all: try (eexists; split; [done|]; by apply is_True_datastore_active).
  all: match goal with
       | Hw : match ?o ≫= _ with _ => _ end |- _ =>
           replace o with (Some (VStr id)) in Hw by done;
           cbn [mbind option_bind] in Hw;
           cbn [ckan_db set_datastore_db] in Hw;
           rewrite Hsel in Hw; destruct Hw as [-> _]
       end.
  all: apply registry_with_flag_get.
Qed.

(** X2. [datastore_create] on the id of an existing resource, when it
    returns a result: the flag synchronizer has been called, with
    [True], if and only if the flag the resource had before the call
    was not [True]; the flag is [True] at the end. *)
Lemma create_calls_the_synchronizer
    (ctx : context) (data_dict validated errors : gmap string value)
    (w : world) result :
  create_validated E ctx data_dict = (validated, errors) ->
  validated !! "resource" = None ->
  let run := datastore_create E ctx data_dict w in
  result_of run = Ok result ->
  exists rid row,
    validated !! "resource_id" = Some rid /\
    Resource_get (ckan_db w) rid = Some row /\
    (forall d, EvSetFlag d false ∉ trace_of run) /\
    ((exists d, EvSetFlag d true ∈ trace_of run) <->
     row_extras row !! "datastore_active" <> Some (VBool true)) /\
    exists row',
      Resource_get (ckan_db (world_of run)) rid = Some row' /\
      row_extras row' !! "datastore_active" = Some (VBool true).
Proof.
  intros Hv Hres. cbn zeta. unfold datastore_create. rewrite Hv, Hres.
  mrun; try done.
  all: match goal with
       | H : datastore_create_table _ _ ?dd ?w1 = _ |- _ =>
           pose proof (datastore_create_table_flag ctx dd w1) as Htail;
           cbn zeta in Htail; rewrite H in Htail;
           cbn [trace_of world_of result_of fst snd] in Htail
       end.
  all: intros Hok; destruct (Htail _ Hok)
         as (rid & row & Hrid & Hrow & Hfalse & Htrue & Hend).
  all: revert Hrid; dict_simpl; intros Hrid.
  all: exists rid, row; split_and!; [congruence | done | | | done].
  all: try (intros d Hin; inv_trace Hin; by eapply Hfalse).
  all: rewrite <- Htrue; split; intros [d Hin].
  all: try (inv_trace Hin; by eauto).
  all: exists d; repeat (apply list_elem_of_further); done.
Qed.

End Properties.

(** * More properties of the actions *)

(** ** Rules for [returns], [emits] and [preserves] *)

Lemma returns_bind {A B} (m : M A) (k : A -> M B) Q :
  (forall a, returns (k a) Q) -> returns (bind m k) Q.
Proof.
  intros Hk w b. unfold bind, result_of.
  destruct (m w) as [[[a|e] w1] t1]; [|done].
  specialize (Hk a w1 b). unfold result_of in Hk.
  destruct (k a w1) as [[r w2] t2]. exact Hk.
Qed.

Lemma returns_ret {A} (a : A) (Q : A -> Prop) : Q a -> returns (ret a) Q.
Proof. intros HQ w b. cbn. by intros [= <-]. Qed.

Lemma returns_raise {A} e (Q : A -> Prop) : returns (raise e) Q.
Proof. by intros w b. Qed.

Lemma emits_bind {A B} (m : M A) (k : A -> M B) P :
  emits m P -> (forall a, emits (k a) P) -> emits (bind m k) P.
Proof.
  intros Hm Hk w. unfold bind, trace_of. specialize (Hm w).
  unfold trace_of in Hm.
  destruct (m w) as [[[a|e] w1] t1]; [|done].
  specialize (Hk a w1). unfold trace_of in Hk.
  destruct (k a w1) as [[r w2] t2]. cbn in *. by apply Forall_app.
Qed.

Lemma emits_ret {A} (a : A) P : emits (ret a) P.
Proof. intros w. constructor. Qed.

Lemma emits_raise {A} e P : emits (@raise A e) P.
Proof. intros w. constructor. Qed.

Lemma emits_log e (P : event -> Prop) : P e -> emits (log e) P.
Proof. intros He w. by repeat constructor. Qed.

Lemma emits_silent {A} (f : world -> outcome A * world) P :
  emits (fun w => (f w, [])) P.
Proof. intros w. constructor. Qed.

Lemma preserves_bind {A B C} (proj : world -> C) (m : M A) (k : A -> M B) :
  preserves proj m -> (forall a, preserves proj (k a)) ->
  preserves proj (bind m k).
Proof.
  intros Hm Hk w. unfold bind, world_of. specialize (Hm w).
  unfold world_of in Hm.
  destruct (m w) as [[[a|e] w1] t1]; [|done].
  specialize (Hk a w1). unfold world_of in Hk.
  destruct (k a w1) as [[r w2] t2]. cbn in *. congruence.
Qed.

Lemma preserves_ret {A B} (proj : world -> B) (a : A) : preserves proj (ret a).
Proof. by intros w. Qed.

Lemma preserves_raise {A B} (proj : world -> B) e :
  preserves proj (@raise A e).
Proof. by intros w. Qed.

Lemma preserves_log {B} (proj : world -> B) e : preserves proj (log e).
Proof. by intros w. Qed.

Lemma preserves_pure {A B} (proj : world -> B) (f : world -> outcome A) :
  preserves proj (fun w => (f w, w, [])).
Proof. by intros w. Qed.

Lemma emits_get_world P : emits get_world P.
Proof. intros w. constructor. Qed.

Lemma emits_on_datastore {A} (f : datastore -> outcome A * datastore) P :
  emits (fun w => let '(r, d) := f (datastore_db w) in
                  (r, set_datastore_db d w, [])) P.
Proof. intros w. unfold trace_of. destruct (f _). constructor. Qed.

Lemma emits_on_registry {A} (f : registry -> outcome A * registry) P :
  emits (on_registry f) P.
Proof. intros w. unfold on_registry, trace_of. destruct (f _). constructor. Qed.

Lemma emits_weaken {A} (m : M A) (P Q : event -> Prop) :
  (forall ev, P ev -> Q ev) -> emits m P -> emits m Q.
Proof. intros HPQ Hm w. eapply Forall_impl; [apply Hm|done]. Qed.

Lemma emits_bind_raises {A B} (m : M A) (k : A -> M B) P :
  always_raises m -> emits m P -> emits (bind m k) P.
Proof.
  intros Hr Hm w. unfold bind, trace_of. specialize (Hm w).
  destruct (Hr w) as [e He]. unfold trace_of in Hm. unfold result_of in He.
  destruct (m w) as [[[a|e'] w1] t1]; [done|]. exact Hm.
Qed.

Lemma returns_bind_raises {A B} (m : M A) (k : A -> M B) Q :
  always_raises m -> returns (bind m k) Q.
Proof.
  intros Hr w b. unfold bind, result_of.
  destruct (Hr w) as [e He]. unfold result_of in He.
  by destruct (m w) as [[[a|e'] w1] t1].
Qed.

(** Split a statement about an action along the structure of its code:
    binds by the rules above, branches by cases. *)
Ltac split_cases :=
  match goal with
  | |- context [match ?x with _ => _ end] =>
      let y := innermost x in destruct y eqn:?
  end.

Ltac step_returns :=
  first [ apply returns_bind; intros ?
        | apply returns_raise
        | apply returns_ret ].

Ltac step_emits :=
  first [ apply emits_ret
        | apply emits_raise
        | apply emits_silent
        | apply emits_get_world
        | apply emits_on_datastore
        | apply emits_on_registry
        | apply emits_log; cbn; done ].

Ltac step_preserves :=
  first [ apply preserves_ret
        | apply preserves_raise
        | apply preserves_log
        | apply preserves_pure ].

(** What is known of the calls to [validate_aliases] and to the flag
    synchronizer that a symbolic run has met. *)
Ltac alias_facts :=
  repeat match goal with
  | H : validate_aliases ?E' ?l ?w = (_, ?w', ?t) |- _ =>
      let Hw := fresh in
      let Ht := fresh in
      destruct (validate_aliases_pure E' l w) as [Hw Ht];
      rewrite H in Hw, Ht; cbn in Hw, Ht; subst w' t; clear H
  end.

Ltac sync_facts :=
  repeat match goal with
  | H : set_datastore_active_flag ?E' ?d ?f ?w = (_, _, ?l) |- _ =>
      is_var l;
      let Hf := fresh "Hflag" in
      let rest := fresh "rest" in
      let Heq := fresh in
      destruct (set_datastore_active_flag_trace E' d f w) as (rest & Heq & Hf);
      rewrite H in Heq; cbn [trace_of snd] in Heq; subst l
  end.

Lemma preserves_get_world {B} (proj : world -> B) : preserves proj get_world.
Proof. by intros w. Qed.

Lemma preserves_on_datastore {A B} (proj : world -> B)
    (f : datastore -> outcome A * datastore) :
  (forall d w, proj (set_datastore_db d w) = proj w) ->
  preserves proj (fun w => let '(r, d) := f (datastore_db w) in
                           (r, set_datastore_db d w, [])).
Proof. intros Hproj w. unfold world_of. destruct (f _) as [r d]. apply Hproj. Qed.

Ltac run_preserves :=
  autounfold with action_unfold;
  repeat first
    [ apply preserves_bind; [|intros ?]
    | step_preserves
    | apply preserves_get_world
    | apply preserves_on_datastore; done
    | split_cases ].

Ltac run_returns :=
  repeat first [ step_returns | split_cases ].

Section ExtraProperties.
Context (E : collaborators).

(** X3. When validation reports errors, [datastore_create],
    [datastore_upsert], [datastore_search] and [datastore_delete] (on
    filters that are a dictionary or [None]) raise a ValidationError
    that carries them; nothing outside the module has been called and
    the world is as it was. *)
Theorem validation_errors_stop_the_action
    (ctx : context) (data_dict : gmap string value) (w : world) :
  (forall validated errors,
     create_validated E ctx data_dict = (validated, errors) ->
     truthy (VDict errors) = true ->
     datastore_create E ctx data_dict w
     = (Raise (ValidationError (VDict errors)), w, [])) /\
  (forall validated errors,
     upsert_validated E ctx data_dict = (validated, errors) ->
     truthy (VDict errors) = true ->
     datastore_upsert E ctx data_dict w
     = (Raise (ValidationError (VDict errors)), w, [])) /\
  (forall validated errors,
     delete_validated E ctx data_dict = (validated, errors) ->
     truthy (VDict errors) = true ->
     filters_well_typed data_dict = true ->
     datastore_delete E ctx data_dict w
     = (Raise (ValidationError (VDict errors)), w, [])) /\
  (forall validated errors,
     search_validated E ctx data_dict = (validated, errors) ->
     truthy (VDict errors) = true ->
     datastore_search E ctx data_dict w
     = (Raise (ValidationError (VDict errors)), w, [])).
Proof.
  split_and!; intros validated errors Hv Herr.
  - unfold datastore_create. by rewrite Hv, Herr.
  - unfold datastore_upsert. by rewrite Hv, Herr.
  - unfold datastore_delete, filters_well_typed. intros Hfilters.
    rewrite Hv, Herr.
    by destruct (dict_get_default "filters" VNone data_dict).
  - unfold datastore_search. by rewrite Hv, Herr.
Qed.

(** X4. [datastore_create] wants a resource or a resource_id and not
    both: once validation and the access policy have let the request
    through, a request with both, and a request with neither, is
    answered with a ValidationError; only the access policy has been
    consulted and the world is as it was. *)
Theorem create_wants_resource_or_resource_id
    (ctx : context) (data_dict validated errors : gmap string value)
    (w : world) :
  create_validated E ctx data_dict = (validated, errors) ->
  truthy (VDict errors) = false ->
  check_access_policy E "datastore_create" ctx validated (ckan_db w) = Ok tt ->
  (is_Some (validated !! "resource") ->
   is_Some (validated !! "resource_id") ->
   datastore_create E ctx data_dict w
   = (Raise (ValidationError (VDict {[ "resource" :=
        VList [VStr "resource cannot be used with resource_id"] ]})),
      w, [EvCheckAccess "datastore_create" validated])) /\
  (validated !! "resource" = None ->
   validated !! "resource_id" = None ->
   datastore_create E ctx data_dict w
   = (Raise (ValidationError (VDict {[ "resource_id" :=
        VList [VStr "resource_id or resource required"] ]})),
      w, [EvCheckAccess "datastore_create" validated])).
Proof.
  intros Hv Herr Hacc. unfold datastore_create. rewrite Hv, Herr.
  split.
  - intros [spec Hspec] [rid Hrid]. rewrite Hspec, Hrid. by mrun.
  - intros Hspec Hrid. rewrite Hspec, Hrid. by mrun.
Qed.

Lemma returns_pop_connection_url result (Q : gmap string value -> Prop) :
  Q (delete "connection_url" result) ->
  returns (pop_connection_url result) Q.
Proof.
  intros HQ. unfold pop_connection_url.
  destruct (result !! "connection_url"); [by apply returns_ret|].
  apply returns_raise.
Qed.

Lemma returns_bind_pop_connection_url {B} result
    (k : gmap string value -> M B) Q :
  returns (k (delete "connection_url" result)) Q ->
  returns (bind (pop_connection_url result) k) Q.
Proof.
  intros Hk w b. unfold bind, pop_connection_url, result_of.
  destruct (result !! "connection_url"); [|done]. cbn.
  specialize (Hk w b). unfold result_of in Hk.
  by destruct (k _ w) as [[r w2] t2].
Qed.

(** X5. What the five actions return never shows the internal keys:
    the result of [datastore_upsert], [datastore_delete],
    [datastore_search] and [datastore_search_sql] has no id and no
    connection_url; [datastore_create] returns [None] or a dictionary
    without id, private and connection_url. *)
Theorem results_are_stripped
    (ctx : context) (data_dict : gmap string value) :
  returns (datastore_create E ctx data_dict)
    (fun result =>
       result = VNone \/
       exists d, result = VDict d /\ d !! "id" = None /\
                 d !! "private" = None /\ d !! "connection_url" = None) /\
  returns (datastore_upsert E ctx data_dict)
    (fun result => result !! "id" = None /\
                   result !! "connection_url" = None) /\
  returns (datastore_delete E ctx data_dict)
    (fun result => result !! "id" = None /\
                   result !! "connection_url" = None) /\
  returns (datastore_search E ctx data_dict)
    (fun result => result !! "id" = None /\
                   result !! "connection_url" = None) /\
  returns (datastore_search_sql E ctx data_dict)
    (fun result => result !! "id" = None /\
                   result !! "connection_url" = None).
Proof.
  split_and!.
  - unfold datastore_create, datastore_create_table.
    repeat first [ apply returns_bind_pop_connection_url
                 | step_returns | split_cases ]; eauto.
    all: right; eexists; split; [done|].
    all: split_and!; rewrite ?lookup_delete_ne by done; apply lookup_delete_eq.
  - unfold datastore_upsert. run_returns.
    all: apply returns_pop_connection_url.
    all: split_and!; rewrite ?lookup_delete_ne by done; apply lookup_delete_eq.
  - unfold datastore_delete. run_returns.
    all: apply returns_pop_connection_url.
    all: split_and!; rewrite ?lookup_delete_ne by done; apply lookup_delete_eq.
  - unfold datastore_search. run_returns.
    all: apply returns_pop_connection_url.
    all: split_and!; rewrite ?lookup_delete_ne by done; apply lookup_delete_eq.
  - unfold datastore_search_sql. run_returns.
    all: apply returns_pop_connection_url.
    all: split_and!; rewrite ?lookup_delete_ne by done; apply lookup_delete_eq.
Qed.

Ltac run_emits :=
  autounfold with action_unfold;
  repeat first
    [ apply emits_bind; [|intros ?]
    | step_emits
    | split_cases ].

Lemma emits_set_datastore_active_flag data_dict flag (P : event -> Prop) :
  P (EvSetFlag data_dict flag) ->
  (forall ev, flag_event ev -> P ev) ->
  emits (set_datastore_active_flag E data_dict flag) P.
Proof.
  intros Hcall Hflag w.
  destruct (set_datastore_active_flag_trace E data_dict flag w)
    as (rest & -> & Hrest).
  constructor; [done|]. eapply Forall_impl; [done|]. exact Hflag.
Qed.

Lemma emits_validate_aliases aliases P :
  emits (validate_aliases E aliases) P.
Proof.
  intros w. by destruct (validate_aliases_pure E aliases w) as [_ ->].
Qed.


(** X7. [datastore_search], [datastore_search_sql] and
    [datastore_upsert] never write to the registry or to the search
    index, whatever the collaborators do: in every run the registry
    and the index are left as they were, and the only outside calls
    are the access policy, catalog statements, [resource_show] and the
    Table Engine. *)
Theorem searching_and_upserting_leave_registry_and_index_alone
    (ctx : context) (data_dict : gmap string value) :
  (preserves ckan_db (datastore_search E ctx data_dict) /\
   preserves solr_index (datastore_search E ctx data_dict) /\
   emits (datastore_search E ctx data_dict) consulting_event) /\
  (preserves ckan_db (datastore_search_sql E ctx data_dict) /\
   preserves solr_index (datastore_search_sql E ctx data_dict) /\
   emits (datastore_search_sql E ctx data_dict) consulting_event) /\
  (preserves ckan_db (datastore_upsert E ctx data_dict) /\
   preserves solr_index (datastore_upsert E ctx data_dict) /\
   emits (datastore_upsert E ctx data_dict) consulting_event).
Proof.
  split_and!.
  - unfold datastore_search. run_preserves.
  - unfold datastore_search. run_preserves.
  - unfold datastore_search. run_emits.
  - unfold datastore_search_sql. run_preserves.
  - unfold datastore_search_sql. run_preserves.
  - unfold datastore_search_sql. run_emits.
  - unfold datastore_upsert. run_preserves.
  - unfold datastore_upsert. run_preserves.
  - unfold datastore_upsert. run_emits.
Qed.

(** X8. Each of the five actions calls no function of the Table Engine
    but its own: [datastore_create] only [db.create],
    [datastore_upsert] only [db.upsert], [datastore_delete] only
    [db.delete], [datastore_search] only [db.search] and
    [datastore_search_sql] only [db.search_sql]. *)
Theorem each_action_calls_its_own_engine_function
    (ctx : context) (data_dict : gmap string value) :
  emits (datastore_create E ctx data_dict) (engine_call_is db_create) /\
  emits (datastore_upsert E ctx data_dict) (engine_call_is db_upsert) /\
  emits (datastore_delete E ctx data_dict) (engine_call_is db_delete) /\
  emits (datastore_search E ctx data_dict) (engine_call_is db_search) /\
  emits (datastore_search_sql E ctx data_dict) (engine_call_is db_search_sql).
Proof.
  split_and!.
  - unfold datastore_create, datastore_create_table.
    repeat first
      [ apply emits_validate_aliases
      | apply emits_set_datastore_active_flag; [done|by intros []]
      | apply emits_bind; [|intros ?]
      | step_emits
      | progress autounfold with action_unfold
      | split_cases ].
    all: intros w; unfold db, bind, log, trace_of.
    all: destruct (db_call E _ _ _ _) as [[?|[]] ?]; by repeat constructor.
  - unfold datastore_upsert. run_emits.
  - unfold datastore_delete.
    repeat first
      [ apply emits_set_datastore_active_flag; [done|by intros []]
      | apply emits_bind; [|intros ?]
      | step_emits
      | progress autounfold with action_unfold
      | split_cases ].
  - unfold datastore_search. run_emits.
  - unfold datastore_search_sql. run_emits.
Qed.

Ltac run_emits_table :=
  repeat first
    [ apply emits_validate_aliases
    | apply emits_set_datastore_active_flag; [done|by intros []]
    | apply emits_bind; [|intros ?]
    | step_emits
    | progress autounfold with action_unfold
    | split_cases ].

Lemma validate_aliases_rejects aliases alias :
  alias ∈ aliases ->
  _is_valid_table_name E alias = false ->
  always_raises (validate_aliases E aliases).
Proof.
  intros Hin Hbad w. unfold validate_aliases.
  induction aliases as [|other aliases IH]; [by apply elem_of_nil in Hin|].
  cbn [for_each]. unfold bind.
  apply elem_of_cons in Hin as [<-|Hin].
  - rewrite Hbad. cbn. eauto.
  - destruct (_is_valid_table_name E other); cbn; [|eauto].
    destruct (IH Hin) as [e He]. unfold result_of in He.
    destruct (for_each aliases _ w) as [[r w'] t]. cbn in *. eauto.
Qed.

(** X9. When one of the aliases of the validated request is not a
    valid table name, [datastore_create] never reaches the table: in
    every run no function of the Table Engine is called, the flag
    synchronizer is not called, and no table description is returned
    (the only result the action can still return is the [None] of a
    resource left to the datapusher, whose aliases are not looked
    at). *)
Theorem invalid_alias_stops_create
    (ctx : context) (data_dict validated errors : gmap string value)
    (aliases : list value) (alias : value) :
  create_validated E ctx data_dict = (validated, errors) ->
  get_list E (dict_get_default "aliases" (VList []) validated)
  = Some aliases ->
  alias ∈ aliases ->
  _is_valid_table_name E alias = false ->
  emits (datastore_create E ctx data_dict) no_table_event /\
  returns (datastore_create E ctx data_dict) (fun result => result = VNone).
Proof.
  intros Hv Hlist Hin Hbad.
  pose proof (validate_aliases_rejects aliases alias Hin Hbad) as Hraises.
  unfold datastore_create, datastore_create_table. rewrite Hv.
  split.
  - repeat first
      [ rewrite Hlist
      | progress dict_simpl
      | apply emits_bind_raises; [exact Hraises|apply emits_validate_aliases]
      | apply emits_bind; [|intros ?]
      | step_emits
      | progress autounfold with action_unfold
      | split_cases ].
  - repeat first
      [ rewrite Hlist
      | progress dict_simpl
      | apply returns_bind_raises; exact Hraises
      | step_returns; try done
      | split_cases ].
Qed.

Lemma datastore_create_table_invalid_data
    (ctx : context) (data_dict d : gmap string value) (w : world) err ds :
  let run := datastore_create_table E ctx data_dict w in
  EvDb db_create d ∈ trace_of run ->
  db_call E db_create ctx d (datastore_db w) = (Raise (InvalidDataError err), ds) ->
  result_of run = Raise (ValidationError (VStr err)) /\
  (forall d' flag, EvSetFlag d' flag ∉ trace_of run) /\
  world_of run = set_datastore_db ds w.
Proof.
  cbn zeta. unfold datastore_create_table.
  mrun; alias_facts; try (by not_in_trace).
  all: sync_facts.
  all: intros Hin Hcall; inv_trace Hin.
  all: rewrite Hcall in *; simplify_eq.
  all: split_and!; [done| |done].
  all: intros d' flag; not_in_trace.
Qed.

(** X10. When [db.create] rejects the data with an InvalidDataError,
    [datastore_create] raises a ValidationError with the text of that
    error; the flag synchronizer is not called, and the datastore is
    left as the Table Engine left it. *)
Theorem invalid_data_is_reported_as_a_validation_error
    (ctx : context) (data_dict d : gmap string value) (w : world) err ds :
  let run := datastore_create E ctx data_dict w in
  EvDb db_create d ∈ trace_of run ->
  db_call E db_create ctx d (datastore_db w) = (Raise (InvalidDataError err), ds) ->
  result_of run = Raise (ValidationError (VStr err)) /\
  (forall d' flag, EvSetFlag d' flag ∉ trace_of run) /\
  datastore_db (world_of run) = ds.
Proof.
  cbn zeta. unfold datastore_create.
  mrun; try (by not_in_trace).
  all: match goal with
       | H : datastore_create_table _ _ ?dd ?w1 = _ |- _ =>
           pose proof (datastore_create_table_invalid_data ctx dd d w1 err ds)
             as Htail;
           cbn zeta in Htail; rewrite H in Htail;
           cbn [trace_of world_of result_of fst snd
                datastore_db set_ckan_db] in Htail
       end.
  all: intros Hin Hcall; inv_trace Hin.
  all: destruct (Htail Hin Hcall) as (Hres & Hflag & Hworld).
  all: split_and!; [done| |by rewrite Hworld].
  all: intros d' flag Hin'; inv_trace Hin'; by eapply Hflag.
Qed.

Lemma datastore_create_table_emits_no_action ctx data_dict :
  emits (datastore_create_table E ctx data_dict) no_action_event.
Proof.
  unfold datastore_create_table. run_emits_table.
  all: intros w; unfold db, bind, log, trace_of.
  all: destruct (db_call E _ _ _ _) as [[?|[]] ?]; by repeat constructor.
Qed.

(** X11. On a resource specification without url (and no resource_id),
    once validation and the access policy have let the request through
    and [resource_create] has returned the new resource,
    [datastore_create] has created the resource with the placeholder
    url [_datastore_only_resource] and then hands the resource, with
    url_type ["datastore"], to [resource_update]; after that no action
    is called any more: the read-only gate is not consulted and
    nothing is submitted to the datapusher. *)
Theorem empty_resource_is_made_a_datastore_resource
    (ctx : context) (data_dict validated errors spec : gmap string value)
    (w : world) resource_dict reg :
  create_validated E ctx data_dict = (validated, errors) ->
  truthy (VDict errors) = false ->
  check_access_policy E "datastore_create" ctx validated (ckan_db w) = Ok tt ->
  validated !! "resource" = Some (VDict spec) ->
  validated !! "resource_id" = None ->
  spec !! "url" = None ->
  let new_spec := <["url" := VStr "_datastore_only_resource"]> spec in
  resource_create E ctx new_spec (ckan_db w) = (Ok resource_dict, reg) ->
  is_Some (resource_dict !! "id") ->
  exists rest,
    trace_of (datastore_create E ctx data_dict w)
    = EvCheckAccess "datastore_create" validated
        :: EvAction "resource_create" new_spec
        :: EvAction "resource_update"
             (<["url_type" := VStr "datastore"]> resource_dict)
        :: rest /\
    Forall no_action_event rest.
Proof.
  intros Hv Herr Hacc Hspec Hrid Hurl new_spec Hcreate [id Hid].
  unfold datastore_create. rewrite Hv, Herr, Hspec, Hrid.
  assert (Hhas : bool_decide (is_Some (spec !! "url")) = false).
  { apply bool_decide_eq_false. rewrite Hurl. by intros [? ?]. }
  rewrite Hhas. subst new_spec.
  mrun; try (eexists; split; [reflexivity|by constructor]).
  match goal with
  | H : datastore_create_table _ _ ?dd ?w1 = _ |- _ =>
      pose proof (datastore_create_table_emits_no_action ctx dd w1) as Htail;
      rewrite H in Htail; cbn [trace_of snd] in Htail
  end.
  eexists; split; [reflexivity|done].
Qed.

(** X12. [set_datastore_active_flag] needs the row of the resource:
    without a resource_id in [data_dict] it raises KeyError, and when
    no row of the resource table has the id ([res_query.one()]) it
    raises NoResultFound; in both cases nothing has been written or
    committed and the search index has not been queried. *)
Theorem flag_update_needs_the_row
    (data_dict : gmap string value) (flag : bool) (w : world) :
  (data_dict !! "resource_id" = None ->
   set_datastore_active_flag E data_dict flag w
   = (Raise (KeyError "resource_id"), w, [EvSetFlag data_dict flag])) /\
  (forall rid,
     data_dict !! "resource_id" = Some rid ->
     select_resource (ckan_db w) rid = None ->
     set_datastore_active_flag E data_dict flag w
     = (Raise NoResultFound, w, [EvSetFlag data_dict flag])).
Proof.
  unfold set_datastore_active_flag. split.
  - intros Hrid. by mrun.
  - intros rid Hrid Hsel. by mrun.
Qed.

Lemma with_extras_same row :
  with_extras (row_extras row) row = row.
Proof. by destruct row. Qed.

Lemma flag_already_set (extras : gmap string value) flag :
  extras !! "datastore_active" = Some (VBool flag) ->
  {[ "datastore_active" := VBool flag ]} ∪ extras = extras.
Proof.
  intros Hflag. apply map_eq. intros k.
  destruct (decide (k = "datastore_active")) as [->|Hne].
  - by rewrite lookup_union_l', lookup_singleton_eq, Hflag
      by (by rewrite lookup_singleton_eq).
  - rewrite lookup_union_r; [done|]. by rewrite lookup_singleton_ne.
Qed.

Lemma flag_overwritten (extras : gmap string value) flag1 flag2 :
  ({[ "datastore_active" := VBool flag2 ]} : gmap string value)
    ∪ ({[ "datastore_active" := VBool flag1 ]} ∪ extras)
  = {[ "datastore_active" := VBool flag2 ]} ∪ extras.
Proof.
  apply map_eq. intros k.
  destruct (decide (k = "datastore_active")) as [->|Hne].
  - by rewrite !(lookup_union_l' {[ "datastore_active" := VBool flag2 ]})
      by (by rewrite lookup_singleton_eq).
  - rewrite !lookup_union_r; try done; by rewrite lookup_singleton_ne.
Qed.

(** X13. On a resource of the registry, what
    [set_datastore_active_flag] leaves in the registry depends on the
    last flag only: setting a flag the resource already has leaves the
    registry as it was, and setting one flag after another leaves the
    registry that setting the second alone would leave. *)
Theorem flag_update_is_idempotent_and_last_write_wins
    (data_dict : gmap string value) (w : world) (id : string)
    (row : resource_row) :
  data_dict !! "resource_id" = Some (VStr id) ->
  resource_table (ckan_db w) !! id = Some row ->
  (forall flag,
     row_extras row !! "datastore_active" = Some (VBool flag) ->
     ckan_db (world_of (set_datastore_active_flag E data_dict flag w))
     = ckan_db w) /\
  (forall flag1 flag2,
     let w1 := world_of (set_datastore_active_flag E data_dict flag1 w) in
     ckan_db (world_of (set_datastore_active_flag E data_dict flag2 w1))
     = ckan_db (world_of (set_datastore_active_flag E data_dict flag2 w))).
Proof.
  intros Hrid Hrow.
  assert (Hone : forall flag w' row',
            resource_table (ckan_db w') !! id = Some row' ->
            ckan_db (world_of (set_datastore_active_flag E data_dict flag w'))
            = registry_with_flag (ckan_db w') id row' flag).
  { intros flag w' row' Hrow'.
    destruct (set_datastore_active_flag_world E data_dict flag w')
      as [_ Hreg].
    rewrite Hrid in Hreg. cbn [mbind option_bind select_resource] in Hreg.
    rewrite Hrow' in Hreg. by destruct Hreg as [-> _]. }
  split.
  - intros flag Hflag. rewrite (Hone flag w row Hrow).
    unfold registry_with_flag.
    rewrite update_revisions_selects_nothing, flag_already_set by done.
    rewrite with_extras_same, insert_id by done.
    by destruct (ckan_db w).
  - intros flag1 flag2 w1. subst w1.
    rewrite (Hone flag2 w row Hrow).
    erewrite (Hone flag2); last first.
    { rewrite (Hone flag1 w row Hrow).
      cbn [registry_with_flag resource_table]. apply lookup_insert_eq. }
    rewrite (Hone flag1 w row Hrow).
    unfold registry_with_flag.
    cbn [resource_table resource_revision_table package_table
         with_extras row_extras row_package_id row_core].
    rewrite !update_revisions_selects_nothing, insert_insert_eq.
    by rewrite flag_overwritten.
Qed.



End ExtraProperties.

(** ** datastore_info, _resource_exists and the privacy toggles *)

(** X15. [_type_lookup] answers number for numeric and integer and for
    nothing else, date exactly for the types whose name starts with
    timestamp, and text for every other type. *)
Theorem column_types_are_number_date_or_text (t : string) :
  (_type_lookup t = "number" <-> t = "numeric" \/ t = "integer") /\
  (_type_lookup t = "date" <-> String.prefix "timestamp" t = true) /\
  (_type_lookup t = "text" <->
     t <> "numeric" /\ t <> "integer" /\
     String.prefix "timestamp" t = false).
Proof.
  unfold _type_lookup.
  destruct (decide (t = "numeric")) as [->|Hn];
    [vm_compute; intuition congruence|].
  destruct (decide (t = "integer")) as [->|Hi];
    [vm_compute; intuition congruence|].
  rewrite !bool_decide_eq_false_2 by done. cbn [orb].
  destruct (String.prefix "timestamp" t); intuition congruence.
Qed.

(** X16. The schema [datastore_info] builds from the rows
    (column_name, data_type) has no entry for a column whose name starts
    with an underscore; any other column has the type of the last row
    that names it, and a column no row names has no entry. *)
Theorem schema_lists_the_public_columns
    (rows : list (string * string)) (k : string) :
  schema_of rows !! k
  = if String.prefix "_" k then None
    else (fun row => VStr (_type_lookup row.2))
           <$> last (filter (fun row => row.1 = k) rows).
Proof.
  induction rows as [|row rows IH] using rev_ind.
  - cbn. rewrite lookup_empty. by destruct (String.prefix "_" k).
  - unfold schema_of in *. rewrite fold_left_app. cbn [fold_left].
    rewrite filter_app, filter_cons, filter_nil.
    destruct (decide (row.1 = k)) as [<-|Hne].
    + destruct (String.prefix "_" row.1) eqn:Hinternal; [exact IH|].
      by rewrite lookup_insert_eq, last_snoc.
    + rewrite app_nil_r.
      destruct (String.prefix "_" row.1); [exact IH|].
      by rewrite lookup_insert_ne.
Qed.

Section MoreProperties.
Context (E : collaborators) (B : backend).

Lemma emits_bind_ret {A C} (a : A) (k : A -> M C) P :
  emits (k a) P -> emits (bind (ret a) k) P.
Proof.
  intros Hk w. specialize (Hk w). unfold bind, ret, trace_of in *.
  by destruct (k a w) as [[r w2] t2].
Qed.

Lemma check_access_comes_first {A} action ctx data_dict (k : M A) w :
  (exists rest,
     trace_of ((check_access E action ctx data_dict ;;; k) w)
     = EvCheckAccess action data_dict :: rest) /\
  (forall e,
     check_access_policy E action ctx data_dict (ckan_db w) = Raise e ->
     (check_access E action ctx data_dict ;;; k) w
     = (Raise e, w, [EvCheckAccess action data_dict])).
Proof.
  unfold check_access, bind, log.
  destruct (check_access_policy _ _ _ _ _) as [[]|e'].
  - split; [|done]. destruct (k w) as [[r w'] t]. cbn. eauto.
  - split; [cbn; eauto|]. by intros e [= ->].
Qed.

(** X17. [datastore_info] asks the access policy first, on the
    data_dict as it was passed and also when it has no id; when the
    policy refuses, its exception is the result and nothing else has
    been called. *)
Theorem info_checks_access_first
    (ctx : context) (data_dict : gmap string value) (w : world) :
  (exists rest,
     trace_of (datastore_info E B ctx data_dict w)
     = EvCheckAccess "datastore_info" data_dict :: rest) /\
  (forall e,
     check_access_policy E "datastore_info" ctx data_dict (ckan_db w)
     = Raise e ->
     datastore_info E B ctx data_dict w
     = (Raise e, w, [EvCheckAccess "datastore_info" data_dict])).
Proof. unfold datastore_info. apply check_access_comes_first. Qed.

(** X18. [datastore_info] changes nothing: whatever it returns or
    raises, the registry, the datastore database and the search index
    are as they were. Every statement it runs goes to the engine of
    the read url, and besides [resource_show] it calls no action and
    never the Table Engine. *)
Theorem info_only_reads
    (ctx : context) (data_dict : gmap string value) (read_url : string) :
  config E !! "ckan.datastore.read_url" = Some read_url ->
  preserves (fun w => w) (datastore_info E B ctx data_dict) /\
  emits (datastore_info E B ctx data_dict)
    (info_statement_on (VStr read_url)).
Proof.
  intros Hurl. split.
  - unfold datastore_info, execute_schema_sql, execute_meta_sql, execute.
    run_preserves.
  - unfold datastore_info, execute_schema_sql, execute_meta_sql, execute,
      config_item, dict_item.
    rewrite Hurl.
    repeat first
      [ rewrite lookup_insert_eq
      | apply emits_bind_ret
      | apply emits_bind; [|intros ?]
      | step_emits
      | apply emits_log; cbn; by eauto
      | apply emits_log; cbn; right; by rewrite lookup_insert_eq
      | progress autounfold with action_unfold
      | split_cases ].
Qed.

(** X19. [datastore_info] on an id that is no real table of the
    catalog raises not-found after the access check, [resource_show]
    and the catalog statement on the read url: neither the schema nor
    the count statement has been run. *)
Theorem info_of_an_id_without_table_is_not_found
    (ctx : context) (data_dict resource : gmap string value)
    (id : value) (read_url : string) (w : world) :
  check_access_policy E "datastore_info" ctx data_dict (ckan_db w)
  = Ok tt ->
  data_dict !! "id" = Some id ->
  resource_show E ctx {[ "id" := id ]} (ckan_db w) = Ok resource ->
  config E !! "ckan.datastore.read_url" = Some read_url ->
  real_table_rows (catalog (datastore_db w)) id = [] ->
  datastore_info E B ctx data_dict w
  = (Raise (resource_not_found id), w,
     [EvCheckAccess "datastore_info" data_dict;
      EvAction "resource_show" {[ "id" := id ]};
      EvExecute (VStr read_url) select_real_table id]).
Proof.
  intros Hacc Hid Hshow Hurl Hrows.
  unfold datastore_info, execute_schema_sql, execute_meta_sql.
  mrun; try done; by rewrite Hrows in *.
Qed.

(** X20. [datastore_info] on a real table returns a dictionary with
    exactly two entries: under schema the public columns with their
    types, under meta the count of the rows; the three statements ran
    on the read url, in the order catalog, schema, count. *)
Theorem info_reports_schema_and_count
    (ctx : context) (data_dict resource : gmap string value)
    (id : value) (read_url : string) (w : world)
    (columns : list (string * string)) (count : Z) :
  check_access_policy E "datastore_info" ctx data_dict (ckan_db w)
  = Ok tt ->
  data_dict !! "id" = Some id ->
  resource_show E ctx {[ "id" := id ]} (ckan_db w) = Ok resource ->
  config E !! "ckan.datastore.read_url" = Some read_url ->
  real_table_rows (catalog (datastore_db w)) id <> [] ->
  information_schema_columns B (datastore_db w) id = Ok columns ->
  count_ids B (datastore_db w) id = Ok count ->
  let statement_on_read_url : gmap string value :=
    {[ "connection_url" := VStr read_url; "resource_id" := id ]} in
  datastore_info E B ctx data_dict w
  = (Ok {[ "schema" := VDict (schema_of columns);
           "meta" := VDict {[ "count" := VInt count ]} ]},
     w,
     [EvCheckAccess "datastore_info" data_dict;
      EvAction "resource_show" {[ "id" := id ]};
      EvExecute (VStr read_url) select_real_table id;
      EvAction "execute schema_sql" statement_on_read_url;
      EvAction "execute meta_sql" statement_on_read_url]).
Proof.
  intros Hacc Hid Hshow Hurl Hrows Hcols Hcount. cbn zeta.
  unfold datastore_info, execute_schema_sql, execute_meta_sql.
  mrun; try done.
  by destruct (real_table_rows _ _).
Qed.

(** X21. [_resource_exists] answers true exactly when the registry has
    the resource and the catalog has a real table of its name. When
    the registry has no such resource, the catalog is not queried. *)
Theorem resource_exists_in_registry_and_catalog
    (ctx : context) (data_dict : gmap string value) (id url : value)
    (w : world) :
  ctx_model ctx = true ->
  data_dict !! "resource_id" = Some id ->
  data_dict !! "connection_url" = Some url ->
  let run := _resource_exists ctx data_dict w in
  (result_of run = Ok true <->
     is_Some (Resource_get (ckan_db w) id) /\
     real_table_rows (catalog (datastore_db w)) id <> []) /\
  (result_of run = Ok true \/ result_of run = Ok false) /\
  world_of run = w /\
  trace_of run
  = match Resource_get (ckan_db w) id with
    | Some _ => [EvExecute url select_real_table id]
    | None => []
    end.
Proof.
  intros Hmodel Hid Hurl. cbn zeta. unfold _resource_exists.
  destruct (Resource_get (ckan_db w) id) as [row|] eqn:Hget;
    [destruct (real_table_rows (catalog (datastore_db w)) id) eqn:Hreal|];
    mrun.
  all: rewrite ?Hreal; cbn [length Nat.ltb Nat.leb].
  all: split_and!; try done; auto.
  all: split; try done.
  all: first [ by intros [_ ?]
             | by intros [[? ?] _]
             | by (intros _; split; eauto) ].
Qed.

(** X22. [datastore_make_private] and [datastore_make_public] report a
    resource that the registry or the catalog does not have as
    not-found before they ask the access policy: the policy has not
    been consulted, the Table Engine has not been called and the world
    is as it was. The catalog is queried on the write url, and only
    when the registry has the resource. *)
Theorem permission_change_reports_not_found_before_authorization
    (ctx : context) (data_dict : gmap string value) (rid : value)
    (write_url : string) (w : world) :
  permission_target data_dict = Some rid ->
  config E !! "ckan.datastore.write_url" = Some write_url ->
  ctx_model ctx = true ->
  (Resource_get (ckan_db w) rid = None ->
   datastore_make_private E B ctx data_dict w
   = (Raise (resource_not_found rid), w, []) /\
   datastore_make_public E B ctx data_dict w
   = (Raise (resource_not_found rid), w, [])) /\
  (is_Some (Resource_get (ckan_db w) rid) ->
   real_table_rows (catalog (datastore_db w)) rid = [] ->
   datastore_make_private E B ctx data_dict w
   = (Raise (resource_not_found rid), w,
      [EvExecute (VStr write_url) select_real_table rid]) /\
   datastore_make_public E B ctx data_dict w
   = (Raise (resource_not_found rid), w,
      [EvExecute (VStr write_url) select_real_table rid])).
Proof.
  unfold permission_target. intros Htarget Hurl Hmodel.
  unfold datastore_make_private, datastore_make_public, _resource_exists,
    call_db_make_private, call_db_make_public.
  split.
  - intros Hget.
    destruct (data_dict !! "id") eqn:Hid; simplify_eq; split; by mrun.
  - intros [row Hget] Hrows.
    destruct (data_dict !! "id") eqn:Hid; simplify_eq; split;
      mrun; try done; by rewrite Hrows in *.
Qed.

(** X23. When [datastore_make_private] or [datastore_make_public]
    calls the Table Engine, the registry has the resource, the catalog
    has its real table and the access policy has accepted the change;
    the engine gets the request with the id of the request (or else
    its resource_id) as resource_id and the write url as
    connection_url, the same dictionary the policy has seen. *)
Theorem permission_change_reaches_the_engine_after_access
    (ctx : context) (data_dict arg : gmap string value) (w : world) :
  EvAction "db.make_private" arg
    ∈ trace_of (datastore_make_private E B ctx data_dict w) \/
  EvAction "db.make_public" arg
    ∈ trace_of (datastore_make_public E B ctx data_dict w) ->
  exists rid write_url,
    permission_target data_dict = Some rid /\
    config E !! "ckan.datastore.write_url" = Some write_url /\
    arg = permission_request data_dict rid write_url /\
    is_Some (Resource_get (ckan_db w) rid) /\
    real_table_rows (catalog (datastore_db w)) rid <> [] /\
    check_access_policy E "datastore_change_permissions" ctx arg (ckan_db w)
    = Ok tt.
Proof.
  unfold permission_target, permission_request.
  unfold datastore_make_private, datastore_make_public, _resource_exists,
    call_db_make_private, call_db_make_public.
  destruct (data_dict !! "id") eqn:Hid.
  all: mrun.
  all: intros [Hin|Hin]; inv_trace Hin.
  all: repeat match goal with a : unit |- _ => destruct a end.
  all: eexists _, _; split_and!; try done; eauto.
  all: rewrite ?(insert_id data_dict "resource_id") by done; try done.
  all: try (intros Hrows; by rewrite Hrows in * ).
Qed.

(** X24. [datastore_make_private] and [datastore_make_public] leave
    the registry and the search index as they were, whatever they
    return or raise. Each consults the catalog and the access policy
    for changing permissions and calls its own function of the Table
    Engine, never the other one. *)
Theorem permission_change_leaves_registry_and_index_alone
    (ctx : context) (data_dict : gmap string value) :
  (preserves ckan_db (datastore_make_private E B ctx data_dict) /\
   preserves solr_index (datastore_make_private E B ctx data_dict) /\
   emits (datastore_make_private E B ctx data_dict)
     (permission_event "db.make_private")) /\
  (preserves ckan_db (datastore_make_public E B ctx data_dict) /\
   preserves solr_index (datastore_make_public E B ctx data_dict) /\
   emits (datastore_make_public E B ctx data_dict)
     (permission_event "db.make_public")).
Proof.
  unfold datastore_make_private, datastore_make_public, _resource_exists,
    call_db_make_private, call_db_make_public.
  split_and!.
  all: try (destruct (data_dict !! "id"); by run_preserves).
  all: destruct (data_dict !! "id"); autounfold with action_unfold.
  all: repeat first
         [ apply emits_bind; [|intros ?]
         | step_emits
         | split_cases ].
Qed.

(** X25. The Table Engine is asked to write only after every gate:
    whenever [datastore_upsert] calls [db.upsert], or
    [datastore_delete] calls [db.delete], validation has reported no
    errors, the access policy has accepted the validated request, the
    read-only gate has let it through, and the catalog has a real
    table for its resource_id; what the engine gets is the validated
    request without force and with the write url as connection_url. *)
Theorem writes_reach_the_engine_after_every_gate
    (ctx : context) (data_dict d : gmap string value) (w : world) :
  (EvDb db_upsert d ∈ trace_of (datastore_upsert E ctx data_dict w) ->
   exists validated errors rid write_url,
     upsert_validated E ctx data_dict = (validated, errors) /\
     truthy (VDict errors) = false /\
     check_access_policy E "datastore_upsert" ctx validated (ckan_db w)
     = Ok tt /\
     passes_read_only_gate E ctx validated (ckan_db w) /\
     validated !! "resource_id" = Some rid /\
     real_table_rows (catalog (datastore_db w)) rid <> [] /\
     config E !! "ckan.datastore.write_url" = Some write_url /\
     d = <["connection_url" := VStr write_url]> (delete "force" validated)) /\
  (EvDb db_delete d ∈ trace_of (datastore_delete E ctx data_dict w) ->
   exists validated errors rid write_url,
     delete_validated E ctx data_dict = (validated, errors) /\
     truthy (VDict errors) = false /\
     check_access_policy E "datastore_delete" ctx validated (ckan_db w)
     = Ok tt /\
     passes_read_only_gate E ctx validated (ckan_db w) /\
     validated !! "resource_id" = Some rid /\
     real_table_rows (catalog (datastore_db w)) rid <> [] /\
     config E !! "ckan.datastore.write_url" = Some write_url /\
     d = <["connection_url" := VStr write_url]> (delete "force" validated)).
Proof.
  unfold passes_read_only_gate. split.
  - unfold datastore_upsert.
    destruct (upsert_validated E ctx data_dict) as [validated errors].
    mrun; try (by not_in_trace).
    all: intros Hin; inv_trace Hin.
    all: repeat match goal with a : unit |- _ => destruct a end.
    all: eexists _, _, _, _; split_and!; try done.
    all: try (intros Hrows; by rewrite Hrows in * ).
    all: try (left; by apply negb_false_iff).
    all: right; eexists _, _; split_and!; try done.
    all: by apply negb_false_iff.
  - unfold datastore_delete.
    destruct (dict_get_default "filters" VNone data_dict);
      try (cbn; by not_in_trace).
    all: destruct (delete_validated E ctx data_dict) as [validated errors].
    all: mrun; try (by not_in_trace).
    all: sync_facts.
    all: intros Hin; inv_trace Hin.
    all: repeat match goal with a : unit |- _ => destruct a end.
    all: eexists _, _, _, _; split_and!; try done.
    all: try (intros Hrows; by rewrite Hrows in * ).
    all: try (left; by apply negb_false_iff).
    all: right; eexists _, _; split_and!; try done.
    all: by apply negb_false_iff.
Qed.

End MoreProperties.

(** * The statements on the concrete instance *)

Import Demo Requests.

(** C4 as the specification states it fails on the uploaded file
    [res-file], which has no row in the catalog: an upsert without force
    is stopped by the read-only gate, with a validation error and not
    with not-found. *)
Lemma C4_counterexample :
  real_table_rows (catalog (datastore_db w0)) (VStr "res-file") = [] /\
  datastore_upsert demo ctx upsert_file w0
  = (Raise (ValidationError read_only_error), w0,
     [EvCheckAccess "datastore_upsert" upsert_file;
      EvAction "resource_show" {[ "id" := VStr "res-file" ]}]) /\
  forall msg,
    result_of (datastore_upsert demo ctx upsert_file w0)
    <> Raise (ObjectNotFound msg).
Proof.
  split_and!; [vm_compute; reflexivity..|].
  intros msg. vm_compute. discriminate.
Qed.

Lemma C4_witness :
  real_table_rows (catalog (datastore_db w0)) (VStr "res-file") = [] /\
  result_of (datastore_upsert demo ctx upsert_file_forced w0)
  = Raise (resource_not_found (VStr "res-file")).
Proof.
  split; [reflexivity|].
  destruct (C4_missing_table_is_never_handed_to_the_engine
              demo ctx upsert_file_forced (VStr "res-file") w0)
    as [Hupsert _]; [reflexivity|].
  destruct (Hupsert upsert_file_forced ∅) as (_ & _ & Hnot_found);
    [vm_compute; reflexivity..|].
  apply Hnot_found.
  - reflexivity.
  - reflexivity.
  - left. reflexivity.
  - eexists. reflexivity.
Defined.

(** C3 as the specification states it fails on a table created by
    [datastore_create] without force: the resource it creates has url_type ["datastore"],
    so an upsert and a delete without force are let through and succeed.
    It also fails for a caller the access policy denies: the upsert into
    the read-only [res-up] then ends with the authorization error. *)
Lemma C3_counterexample :
  let created := datastore_create demo ctx create_empty w0 in
  (exists description, result_of created = Ok (VDict description)) /\
  real_table_rows (catalog (datastore_db (world_of created))) (VStr new_id)
  = [{| name := new_id; alias_of := None |}] /\
  (exists result,
     result_of (datastore_upsert demo ctx upsert_new (world_of created))
     = Ok result) /\
  (exists result,
     result_of (datastore_delete demo ctx delete_new (world_of created))
     = Ok result) /\
  result_of (datastore_upsert demo_deny ctx upsert_uploaded w0)
  = Raise (NotAuthorized "Access denied").
Proof.
  cbn zeta. split_and!.
  - eexists. vm_compute. reflexivity.
  - vm_compute. reflexivity.
  - eexists. vm_compute. reflexivity.
  - eexists. vm_compute. reflexivity.
  - vm_compute. reflexivity.
Qed.

Lemma C3_witness :
  datastore_upsert demo ctx upsert_uploaded w0
  = (Raise (ValidationError read_only_error), w0,
     [EvCheckAccess "datastore_upsert" upsert_uploaded;
      EvAction "resource_show" {[ "id" := VStr "res-up" ]}]) /\
  exists rest,
    trace_of (datastore_upsert demo ctx upsert_uploaded_forced w0)
    = EvCheckAccess "datastore_upsert" upsert_uploaded_forced
        :: EvExecute (VStr write_url) select_real_table (VStr "res-up")
        :: rest.
Proof.
  split.
  - destruct (C3_read_only_gate_follows_url_type
                demo ctx upsert_uploaded upsert_uploaded ∅ w0)
      as [Hupsert _]; [reflexivity|].
    destruct Hupsert as [Hgate _]; [vm_compute; reflexivity|].
    destruct (Hgate eq_refl eq_refl (VStr "res-up")
                (Demo.show "res-up" uploaded))
      as [Hread_only _]; [reflexivity | reflexivity |].
    apply Hread_only. vm_compute. reflexivity.
  - destruct (C3_read_only_gate_follows_url_type
                demo ctx upsert_uploaded_forced upsert_uploaded_forced ∅ w0)
      as [Hupsert _]; [reflexivity|].
    destruct Hupsert as [_ Hforced]; [vm_compute; reflexivity|].
    destruct (Hforced eq_refl) as [_ Hgoes_on].
    apply Hgoes_on; vm_compute; reflexivity.
Defined.

Lemma C1_witness :
  datastore_search_sql demo ctx sql_two_statements w0
  = (Raise (ValidationError not_single_statement_error), w0, []).
Proof.
  destruct (C1_single_statement_check_comes_first
              demo ctx sql_two_statements (VStr "SELECT 1; DROP TABLE x") w0)
    as [Hmany _]; [reflexivity|].
  apply Hmany. vm_compute. lia.
Defined.

Lemma C6_witness :
  exists d,
    EvDb db_search_sql d
    ∈ trace_of (datastore_search_sql demo ctx sql_one_statement w0) /\
    d !! "connection_url" = Some (VStr read_url).
Proof.
  destruct (C6_search_sql_runs_on_read_url demo ctx sql_one_statement w0)
    as (_ & Hdb & _).
  exists (<["connection_url" := VStr read_url]> sql_one_statement).
  assert (Hin : EvDb db_search_sql
                  (<["connection_url" := VStr read_url]> sql_one_statement)
                ∈ trace_of (datastore_search_sql demo ctx sql_one_statement w0)).
  { vm_compute. apply list_elem_of_further, list_elem_of_here. }
  split; [exact Hin|].
  destruct (Hdb _ _ Hin) as (_ & url & Hurl & Hconn & _).
  vm_compute in Hurl. injection Hurl as <-. exact Hconn.
Defined.

Lemma C10_witness :
  exists rest,
    trace_of (datastore_search demo ctx search_alias w0)
    = EvExecute (VStr write_url) select_alias_of (VStr "up_alias") :: rest.
Proof.
  destruct (C10_search_runs_on_write_url demo ctx search_alias w0)
    as (_ & _ & Hfirst).
  apply (Hfirst search_alias ∅); vm_compute; reflexivity.
Defined.

Lemma C5_witness :
  exists url d rest,
    d !! "resource_id" = Some (VStr "res-up") /\
    trace_of (datastore_search demo ctx search_alias w0)
    = EvExecute url select_alias_of (VStr "up_alias")
        :: EvCheckAccess "datastore_search" d :: rest.
Proof.
  destruct (C5_search_checks_access_on_the_real_table
              demo ctx search_alias search_alias ∅ (VStr "up_alias") w0)
    as [Halias _]; [vm_compute; reflexivity..|].
  destruct (Halias "res-up") as (_ & _ & Hshape);
    [vm_compute; reflexivity | vm_compute; reflexivity | discriminate |].
  apply Hshape; [vm_compute; reflexivity|].
  eexists. vm_compute. reflexivity.
Defined.


(** C8 as the specification states it fails when the datapusher plugin
    is not loaded: the resource is created, nothing is submitted to the
    datapusher and the action raises a validation error. *)
Lemma C8_counterexample :
  let run := datastore_create demo_no_datapusher ctx create_from_url w0 in
  result_of run = Raise (ValidationError datapusher_disabled_error) /\
  trace_of run
  = [EvCheckAccess "datastore_create" create_from_url;
     EvAction "resource_create"
       {[ "package_id" := VStr "pkg-public";
          "url" := VStr "http://example.org/new.csv" ]}] /\
  is_Some (resource_table (ckan_db (world_of run)) !! new_id) /\
  resource_table (ckan_db w0) !! new_id = None.
Proof.
  cbn zeta. split_and!; [vm_compute; reflexivity..| |vm_compute; reflexivity].
  eexists. vm_compute. reflexivity.
Qed.

Lemma C8_witness :
  let run := datastore_create demo ctx create_from_url w0 in
  result_of run = Ok VNone /\
  trace_of run
  = [EvCheckAccess "datastore_create" create_from_url;
     EvAction "resource_create"
       {[ "package_id" := VStr "pkg-public";
          "url" := VStr "http://example.org/new.csv" ]};
     EvAction "datapusher_submit"
       {[ "resource_id" := VStr new_id; "set_url_type" := VBool true ]}] /\
  datastore_db (world_of run) = datastore_db w0.
Proof.
  destruct (C8_url_resource_is_left_to_the_datapusher
              demo ctx create_from_url create_from_url ∅
              {[ "package_id" := VStr "pkg-public";
                 "url" := VStr "http://example.org/new.csv" ]} w0)
    as (_ & _ & Hds & _ & Hrun); [vm_compute; reflexivity..| |].
  { eexists. vm_compute. reflexivity. }
  pose (created := demo_resource_create ctx
                     {[ "package_id" := VStr "pkg-public";
                        "url" := VStr "http://example.org/new.csv" ]}
                     (ckan_db w0)).
  destruct (Hrun eq_refl eq_refl
              (match created.1 with Ok d => d | Raise _ => ∅ end)
              created.2 (VStr new_id))
    as [Hloaded _]; [vm_compute; reflexivity..|].
  cbn zeta. rewrite (Hloaded eq_refl (VBool true) created.2 eq_refl).
  split_and!; [reflexivity | reflexivity |].
  exact Hds.
Defined.

(** C9 as the specification states it fails when the configuration
    gives the read url and the write url the same string: the read url
    is configured, so the table of the private package is marked private
    all the same. *)
Lemma C9_counterexample :
  config demo_same_url !! "ckan.datastore.read_url"
  = config demo_same_url !! "ckan.datastore.write_url" /\
  owning_package_private (ckan_db w0) (VStr "res-ds") /\
  exists d,
    EvDb db_create d
    ∈ trace_of (datastore_create demo_same_url ctx create_on_managed w0) /\
    d !! "private" = Some (VBool true).
Proof.
  split_and!.
  - vm_compute. reflexivity.
  - exists managed, {| pkg_private := true |}.
    split_and!; vm_compute; reflexivity.
  - exists (<["private" := VBool true]>
              (<["connection_url" := VStr write_url]> create_on_managed)).
    split; [|vm_compute; reflexivity].
    vm_compute. do 2 apply list_elem_of_further. apply list_elem_of_here.
Qed.

Lemma C9_witness :
  exists d,
    EvDb db_create d
    ∈ trace_of (datastore_create demo ctx create_on_managed w0) /\
    d !! "private" = Some (VBool true).
Proof.
  pose (d := <["private" := VBool true]>
               (<["connection_url" := VStr write_url]> create_on_managed)).
  assert (Hin : EvDb db_create d
                ∈ trace_of (datastore_create demo ctx create_on_managed w0)).
  { vm_compute. do 2 apply list_elem_of_further. apply list_elem_of_here. }
  exists d. split; [exact Hin|].
  destruct (C9_private_flag_follows_read_url_and_package
              demo ctx create_on_managed create_on_managed ∅ w0
              ltac:(vm_compute; reflexivity) d Hin)
    as (rid & Hrid & Hset & _).
  apply Hset. split.
  - eexists. vm_compute. reflexivity.
  - vm_compute in Hrid. injection Hrid as <-.
    eexists _, {| pkg_private := true |}.
    split_and!; [vm_compute; reflexivity | vm_compute; reflexivity | reflexivity].
Defined.

(** C2. On the request [{resource_id: "res-ds", filters: {}}] the
    filters are present, and the Table Engine, which is handed them,
    keeps the table; [datastore_delete] calls the flag synchronizer all
    the same, and the resource ends with datastore_active [False] while
    its table is still in the catalog. *)
Theorem C2_empty_filters_deactivate_the_resource :
  let run := datastore_delete demo ctx delete_empty_filters w0 in
  delete_empty_filters !! "filters" = Some (VDict ∅) /\
  (exists result, result_of run = Ok result) /\
  (exists d,
     d !! "filters" = Some (VDict ∅) /\
     trace_of run
     = [EvCheckAccess "datastore_delete" delete_empty_filters;
        EvAction "resource_show" {[ "id" := VStr "res-ds" ]};
        EvExecute (VStr write_url) select_real_table (VStr "res-ds");
        EvDb db_delete d;
        EvSetFlag d false;
        EvCommit;
        EvSolrRun (package_query demo "pkg-private")]) /\
  row_extras managed !! "datastore_active" = Some (VBool true) /\
  (row_extras <$> resource_table (ckan_db (world_of run)) !! "res-ds")
  = Some {[ "datastore_active" := VBool false; "note" := VStr "kept" ]} /\
  real_table_rows (catalog (datastore_db (world_of run))) (VStr "res-ds")
  = [{| name := "res-ds"; alias_of := None |}].
Proof.
  cbn zeta. split_and!; try (vm_compute; reflexivity).
  - eexists. vm_compute. reflexivity.
  - exists (<["connection_url" := VStr write_url]> delete_empty_filters).
    split; vm_compute; reflexivity.
Qed.

(** * More statements on the concrete instance *)

Import DemoBackend.

Lemma delete_calls_the_synchronizer_witness :
  exists d,
    EvSetFlag d false ∈ trace_of (datastore_delete demo ctx delete_managed w0).
Proof.
  destruct (delete_calls_the_synchronizer
              demo ctx delete_managed delete_managed ∅ w0)
    as [_ Hwhole]; [vm_compute; reflexivity|].
  destruct (Hwhole eq_refl delete_managed)
    as (rid & row & Hrid & Hrow & _ & Hcalled); [vm_compute; reflexivity|].
  apply Hcalled.
  vm_compute in Hrid. injection Hrid as <-.
  vm_compute in Hrow. injection Hrow as <-.
  vm_compute. reflexivity.
Defined.

Lemma create_calls_the_synchronizer_witness :
  row_extras file_only !! "datastore_active" = None /\
  (exists d,
     EvSetFlag d true ∈ trace_of (datastore_create demo ctx create_on_file w0)) /\
  exists row,
    Resource_get
      (ckan_db (world_of (datastore_create demo ctx create_on_file w0)))
      (VStr "res-file") = Some row /\
    row_extras row !! "datastore_active" = Some (VBool true).
Proof.
  split; [reflexivity|].
  destruct (create_calls_the_synchronizer
              demo ctx create_on_file create_on_file ∅ w0
              (VDict {[ "resource_id" := VStr "res-file" ]}))
    as (rid & row & Hrid & Hrow & _ & Hcalled & Hend);
    [vm_compute; reflexivity..|].
  vm_compute in Hrid. injection Hrid as <-.
  split; [|exact Hend].
  apply Hcalled.
  vm_compute in Hrow. injection Hrow as <-.
  vm_compute. discriminate.
Defined.

Lemma validation_errors_stop_the_action_witness :
  datastore_upsert demo_strict ctx ∅ w0
  = (Raise (ValidationError
              (VDict {[ "resource_id" := VList [VStr "Missing value"] ]})),
     w0, []).
Proof.
  destruct (validation_errors_stop_the_action demo_strict ctx ∅ w0)
    as (_ & Hupsert & _).
  apply (Hupsert ∅); vm_compute; reflexivity.
Defined.

Lemma create_wants_resource_or_resource_id_witness :
  datastore_create demo ctx create_with_both w0
  = (Raise (ValidationError (VDict {[ "resource" :=
       VList [VStr "resource cannot be used with resource_id"] ]})),
     w0, [EvCheckAccess "datastore_create" create_with_both]).
Proof.
  destruct (create_wants_resource_or_resource_id
              demo ctx create_with_both create_with_both ∅ w0)
    as [Hboth _]; [vm_compute; reflexivity..|].
  apply Hboth; eexists; vm_compute; reflexivity.
Defined.

Lemma results_are_stripped_witness :
  exists result,
    result_of (datastore_upsert demo ctx upsert_uploaded_forced w0) = Ok result /\
    result !! "id" = None /\ result !! "connection_url" = None.
Proof.
  destruct (results_are_stripped demo ctx upsert_uploaded_forced)
    as (_ & Hupsert & _).
  eexists. split; [vm_compute; reflexivity|].
  apply (Hupsert w0). vm_compute. reflexivity.
Defined.


Lemma searching_and_upserting_leave_registry_and_index_alone_witness :
  ckan_db (world_of (datastore_upsert demo ctx upsert_uploaded_forced w0))
  = ckan_db w0 /\
  Forall consulting_event
    (trace_of (datastore_upsert demo ctx upsert_uploaded_forced w0)).
Proof.
  destruct (searching_and_upserting_leave_registry_and_index_alone
              demo ctx upsert_uploaded_forced)
    as (_ & _ & Hregistry & _ & Hevents).
  split; [apply (Hregistry w0) | apply (Hevents w0)].
Defined.

Lemma each_action_calls_its_own_engine_function_witness :
  Forall (engine_call_is db_delete)
    (trace_of (datastore_delete demo ctx delete_managed w0)).
Proof.
  destruct (each_action_calls_its_own_engine_function
              demo ctx delete_managed)
    as (_ & _ & Hdelete & _).
  apply (Hdelete w0).
Defined.

Lemma invalid_alias_stops_create_witness :
  Forall no_table_event
    (trace_of (datastore_create demo ctx create_bad_alias w0)).
Proof.
  destruct (invalid_alias_stops_create
              demo ctx create_bad_alias create_bad_alias ∅
              [VStr "fine"; VStr "_hidden"] (VStr "_hidden"))
    as [Hevents _].
  - vm_compute. reflexivity.
  - vm_compute. reflexivity.
  - apply list_elem_of_further, list_elem_of_here.
  - vm_compute. reflexivity.
  - apply (Hevents w0).
Defined.

Lemma invalid_data_is_reported_as_a_validation_error_witness :
  result_of (datastore_create demo_bad_data ctx create_on_managed w0)
  = Raise (ValidationError (VStr "field a: not a number")).
Proof.
  destruct (invalid_data_is_reported_as_a_validation_error
              demo_bad_data ctx create_on_managed
              (<["private" := VBool true]>
                 (<["connection_url" := VStr write_url]> create_on_managed))
              w0 "field a: not a number" (datastore_db w0))
    as [Hresult _].
  - vm_compute. do 2 apply list_elem_of_further. apply list_elem_of_here.
  - vm_compute. reflexivity.
  - exact Hresult.
Defined.

Lemma empty_resource_is_made_a_datastore_resource_witness :
  exists created rest,
    created !! "id" = Some (VStr new_id) /\
    trace_of (datastore_create demo ctx create_empty w0)
    = EvCheckAccess "datastore_create" create_empty
        :: EvAction "resource_create"
             (<["url" := VStr "_datastore_only_resource"]>
                {[ "package_id" := VStr "pkg-public" ]})
        :: EvAction "resource_update"
             (<["url_type" := VStr "datastore"]> created)
        :: rest /\
    Forall no_action_event rest.
Proof.
  pose (new_spec := <["url" := VStr "_datastore_only_resource"]>
                      ({[ "package_id" := VStr "pkg-public" ]}
                         : gmap string value)).
  pose (created := demo_resource_create ctx new_spec (ckan_db w0)).
  destruct (empty_resource_is_made_a_datastore_resource
              demo ctx create_empty create_empty ∅
              {[ "package_id" := VStr "pkg-public" ]} w0
              (match created.1 with Ok d => d | Raise _ => ∅ end)
              created.2)
    as (rest & Htrace & Hrest); [vm_compute; reflexivity..| |].
  { eexists. vm_compute. reflexivity. }
  eexists _, rest. split_and!; [|exact Htrace|exact Hrest].
  vm_compute. reflexivity.
Defined.

Lemma flag_update_needs_the_row_witness :
  set_datastore_active_flag demo flag_of_unknown true w0
  = (Raise NoResultFound, w0, [EvSetFlag flag_of_unknown true]).
Proof.
  destruct (flag_update_needs_the_row demo flag_of_unknown true w0)
    as [_ Hrow].
  apply (Hrow (VStr "no-such-resource")); vm_compute; reflexivity.
Defined.

Lemma flag_update_is_idempotent_and_last_write_wins_witness :
  ckan_db (world_of (set_datastore_active_flag demo flag_of_uploaded true w0))
  = ckan_db w0.
Proof.
  destruct (flag_update_is_idempotent_and_last_write_wins
              demo flag_of_uploaded w0 "res-up" uploaded)
    as [Hsame _]; [vm_compute; reflexivity..|].
  apply Hsame. vm_compute. reflexivity.
Defined.


Lemma info_checks_access_first_witness :
  datastore_info demo_deny demo_backend ctx ∅ w0
  = (Raise (NotAuthorized "Access denied"), w0,
     [EvCheckAccess "datastore_info" ∅]).
Proof.
  destruct (info_checks_access_first demo_deny demo_backend ctx ∅ w0)
    as [_ Hdenied].
  apply Hdenied. reflexivity.
Defined.

Lemma info_only_reads_witness :
  world_of (datastore_info demo demo_backend ctx info_uploaded w0) = w0 /\
  Forall (info_statement_on (VStr read_url))
    (trace_of (datastore_info demo demo_backend ctx info_uploaded w0)).
Proof.
  destruct (info_only_reads demo demo_backend ctx info_uploaded read_url)
    as [Hworld Hevents]; [vm_compute; reflexivity|].
  split; [apply (Hworld w0) | apply (Hevents w0)].
Defined.

Lemma info_of_an_id_without_table_is_not_found_witness :
  datastore_info demo demo_backend ctx info_file w0
  = (Raise (resource_not_found (VStr "res-file")), w0,
     [EvCheckAccess "datastore_info" info_file;
      EvAction "resource_show" {[ "id" := VStr "res-file" ]};
      EvExecute (VStr read_url) select_real_table (VStr "res-file")]).
Proof.
  apply (info_of_an_id_without_table_is_not_found
           demo demo_backend ctx info_file (Demo.show "res-file" file_only));
    vm_compute; reflexivity.
Defined.

Lemma info_reports_schema_and_count_witness :
  result_of (datastore_info demo demo_backend ctx info_uploaded w0)
  = Ok {[ "schema" := VDict {[ "a" := VStr "number";
                               "measured" := VStr "date";
                               "name" := VStr "text" ]};
          "meta" := VDict {[ "count" := VInt 0 ]} ]}.
Proof.
  rewrite (info_reports_schema_and_count
             demo demo_backend ctx info_uploaded
             (Demo.show "res-up" uploaded) (VStr "res-up") read_url w0
             [("_id", "integer"); ("_full_text", "tsvector");
              ("a", "numeric"); ("measured", "timestamp without time zone");
              ("name", "text")] 0);
    try (vm_compute; reflexivity).
  vm_compute. discriminate.
Defined.

Lemma resource_exists_in_registry_and_catalog_witness :
  result_of (_resource_exists ctx exists_uploaded w0) = Ok true.
Proof.
  destruct (resource_exists_in_registry_and_catalog
              ctx exists_uploaded (VStr "res-up") (VStr write_url) w0)
    as [Htrue _]; [vm_compute; reflexivity..|].
  apply Htrue. split; [eexists; vm_compute; reflexivity|].
  vm_compute. discriminate.
Defined.

Lemma permission_change_reports_not_found_before_authorization_witness :
  datastore_make_private demo_deny demo_backend ctx permissions_file w0
  = (Raise (resource_not_found (VStr "res-file")), w0,
     [EvExecute (VStr write_url) select_real_table (VStr "res-file")]) /\
  datastore_make_public demo_deny demo_backend ctx permissions_unknown w0
  = (Raise (resource_not_found (VStr "no-such-resource")), w0, []).
Proof.
  split.
  - destruct (permission_change_reports_not_found_before_authorization
                demo_deny demo_backend ctx permissions_file
                (VStr "res-file") write_url w0)
      as [_ Htable]; [vm_compute; reflexivity..|].
    apply Htable; [eexists|]; vm_compute; reflexivity.
  - destruct (permission_change_reports_not_found_before_authorization
                demo_deny demo_backend ctx permissions_unknown
                (VStr "no-such-resource") write_url w0)
      as [Hregistry _]; [vm_compute; reflexivity..|].
    apply Hregistry. vm_compute. reflexivity.
Defined.

Lemma permission_change_reaches_the_engine_after_access_witness :
  let request :=
    <["connection_url" := VStr write_url]>
      (<["resource_id" := VStr "res-ds"]> permissions_managed) in
  EvAction "db.make_private" request
    ∈ trace_of (datastore_make_private demo demo_backend ctx
                  permissions_managed w0) /\
  is_Some (Resource_get (ckan_db w0) (VStr "res-ds")) /\
  real_table_rows (catalog (datastore_db w0)) (VStr "res-ds") <> [].
Proof.
  cbn zeta.
  assert (Hin : EvAction "db.make_private"
                  (<["connection_url" := VStr write_url]>
                     (<["resource_id" := VStr "res-ds"]> permissions_managed))
                ∈ trace_of (datastore_make_private demo demo_backend ctx
                              permissions_managed w0)).
  { vm_compute. do 2 apply list_elem_of_further. apply list_elem_of_here. }
  split; [exact Hin|].
  destruct (permission_change_reaches_the_engine_after_access
              demo demo_backend ctx permissions_managed _ w0 (or_introl Hin))
    as (rid & url & Htarget & _ & _ & Hregistry & Hcatalog & _).
  vm_compute in Htarget. injection Htarget as <-.
  split; assumption.
Defined.

Lemma permission_change_leaves_registry_and_index_alone_witness :
  ckan_db (world_of (datastore_make_public demo demo_backend ctx
                       permissions_managed w0))
  = ckan_db w0 /\
  Forall (permission_event "db.make_public")
    (trace_of (datastore_make_public demo demo_backend ctx
                 permissions_managed w0)).
Proof.
  destruct (permission_change_leaves_registry_and_index_alone
              demo demo_backend ctx permissions_managed)
    as (_ & Hregistry & _ & Hevents).
  split; [apply (Hregistry w0) | apply (Hevents w0)].
Defined.

Lemma writes_reach_the_engine_after_every_gate_witness :
  let request :=
    <["connection_url" := VStr write_url]>
      (delete "force" upsert_uploaded_forced) in
  EvDb db_upsert request
    ∈ trace_of (datastore_upsert demo ctx upsert_uploaded_forced w0) /\
  real_table_rows (catalog (datastore_db w0)) (VStr "res-up") <> [].
Proof.
  cbn zeta.
  assert (Hin : EvDb db_upsert
                  (<["connection_url" := VStr write_url]>
                     (delete "force" upsert_uploaded_forced))
                ∈ trace_of (datastore_upsert demo ctx upsert_uploaded_forced w0)).
  { vm_compute. do 2 apply list_elem_of_further. apply list_elem_of_here. }
  split; [exact Hin|].
  destruct (writes_reach_the_engine_after_every_gate
              demo ctx upsert_uploaded_forced
              (<["connection_url" := VStr write_url]>
                 (delete "force" upsert_uploaded_forced)) w0)
    as [Hupsert _].
  destruct (Hupsert Hin)
    as (validated & errors & rid & url & Hv & _ & _ & _ & Hrid & Hrows & _).
  vm_compute in Hv. injection Hv as <- <-.
  vm_compute in Hrid. injection Hrid as <-.
  exact Hrows.
Defined.
